(** * convoy: the Python-import pipeline extractor

    A shallow embedding of [server/scripts/parse_python_pipeline.py].

    The script reads a pandas program, parses it with Python's [ast] module,
    walks the tree with an [ast.NodeVisitor] that recognizes a closed set of
    statement shapes, and prints one JSON document
    [{"steps": [...], "fallbackToLlm": <bool>}].

    Modelling conventions.
    - The syntax tree is the one [ast.parse] builds on Python 3.9 and later,
      where a subscript's [slice] is an expression (no [Index] wrapper).
      Only the node classes and attributes the script inspects are kept
      apart; every other expression class is [OtherExpr], every other
      statement class is [OtherStmt] with its nested statements in field
      order (the order [generic_visit] follows).
    - The only position attributes the script reads are [lineno] and
      [end_lineno] of the right-hand side of an assignment; they are stored
      on [Assign].
    - A Python [str] is a [string]; characters are code points below 256.
    - Exceptions are explicit: a computation returns [Ok v] or [Raised e].
      The interpreter is a parameter: the parser, the digit limit of the
      int-to-str conversion, and the textual form of floats, complex numbers
      and bytes.  Resource exhaustion of the interpreter (recursion depth,
      memory) is not modelled.  In particular the walks [generic_visit]
      makes over expressions (the last line of [visit_Assign] and of
      [visit_Expr], the expressions of the other statements) are left out:
      they add no step and change no flag, and can only end in the
      [RecursionError] of an expression nested deeper than the stack of
      the interpreter allows. *)

From Stdlib Require Import ZArith List String Ascii Bool Lia.
From Stdlib Require Import Floats.SpecFloat.
From Stdlib Require DecimalString.
Import ListNotations.

Local Open Scope string_scope.
Local Open Scope Z_scope.

Set Warnings "-register-all".

(** ** Exceptions and fallible computations *)

Inductive exn : Type :=
| SyntaxError
| ValueError
| TypeError
| IndexError
| RecursionError
| MemoryError.

Definition is_SyntaxError (e : exn) : bool :=
  match e with SyntaxError => true | _ => false end.

(** Every exception class above derives from [Exception]. *)
Definition is_Exception (e : exn) : bool := true.

Inductive result (A : Type) : Type :=
| Ok (a : A)
| Raised (e : exn).

Arguments Ok {A} a.
Arguments Raised {A} e.

Definition bind {A B : Type} (r : result A) (k : A -> result B) : result B :=
  match r with
  | Ok a => k a
  | Raised e => Raised e
  end.

Notation "x <- r ;; k" := (bind r (fun x => k))
  (at level 61, r at next level, right associativity).

(** ** Python values carried by [ast.Constant] *)

Inductive constant : Type :=
| CNone
| CBool (b : bool)
| CInt (n : Z)
| CFloat (f : spec_float)
| CComplex (imag : spec_float)
| CStr (s : string)
| CBytes (b : string)
| CEllipsis.

(** ** Syntax trees

    The node classes live in a module named after Python's, so that they
    read as in the script: [ast.Subscript], [ast.LtE], ... *)

Module ast.

Inductive cmpop : Type :=
| Eq | NotEq | Lt | LtE | Gt | GtE | Is | IsNot | In | NotIn.

Inductive expr : Type :=
| Constant (value : constant)
| Name (id : string)
| Attribute (value : expr) (attr : string)
| Subscript (value : expr) (slice : expr)
| Call (func : expr) (args : list expr) (keywords : list (option string * expr))
| Compare (left : expr) (ops : list cmpop) (comparators : list expr)
| Tuple (elts : list expr)
| List (elts : list expr)
| SetDisplay (elts : list expr)
| Starred (value : expr)
| NamedExpr (target : expr) (value : expr)
| Await (value : expr)
| Yield (value : option expr)
| YieldFrom (value : expr)
| DictComp (key : expr) (value : expr)
| OtherExpr.

(** A keyword argument [arg=value]; [arg] is [None] for [**value]. *)
Definition keyword : Type := (option string * expr)%type.
Definition arg (k : keyword) : option string := fst k.
Definition kw_value (k : keyword) : expr := snd k.

(** [Assign] also records [lineno] and [end_lineno] of its [value] node. *)
Inductive stmt : Type :=
| Assign (targets : list expr) (value : expr)
         (lineno : Z) (end_lineno : option Z)
| Expr (value : expr)
| OtherStmt (nested : list stmt).

End ast.

(** What [ast.parse] does with a source text. *)
Inductive parse_outcome : Type :=
| Parsed (body : list ast.stmt)
| ParseRaises (e : exn).

(** ** Truthiness and small Python idioms *)

Definition is_zero_float (f : spec_float) : bool :=
  match f with S754_zero _ => true | _ => false end.

Definition nonempty (s : string) : bool :=
  match s with EmptyString => false | _ => true end.

(** [bool(v)] for a constant value. *)
Definition truthy (c : constant) : bool :=
  match c with
  | CNone => false
  | CBool b => b
  | CInt n => negb (n =? 0)
  | CFloat f => negb (is_zero_float f)
  | CComplex im => negb (is_zero_float im)
  | CStr s => nonempty s
  | CBytes b => nonempty b
  | CEllipsis => true
  end.

(** [x or d] where [x : Optional[str]] and [d : str]. *)
Definition str_or (x : option string) (d : string) : string :=
  match x with
  | Some s => if nonempty s then s else d
  | None => d
  end.

(** [if x:] on an [Optional[str]], binding the value when it is truthy. *)
Definition truthy_str (x : option string) : option string :=
  match x with
  | Some s => if nonempty s then Some s else None
  | None => None
  end.

Definition in_strings (s : string) (l : list string) : bool :=
  existsb (String.eqb s) l.

(** [x == s] where [x] may be [None]. *)
Definition is_str (x : option string) (s : string) : bool :=
  match x with
  | Some a => String.eqb a s
  | None => false
  end.

Definition is_None (c : constant) : bool :=
  match c with CNone => true | _ => false end.

Definition of_optional_str (x : option string) : constant :=
  match x with Some s => CStr s | None => CNone end.

(** ** Strings: [splitlines], [join], [strip], slices *)

(** Line boundaries of [str.splitlines] among the code points below 256. *)
Definition is_linebreak (c : ascii) : bool :=
  let n := nat_of_ascii c in
  existsb (Nat.eqb n) [10; 11; 12; 13; 28; 29; 30; 133]%nat.

(** [str.isspace] among the code points below 256. *)
Definition is_space (c : ascii) : bool :=
  let n := nat_of_ascii c in
  existsb (Nat.eqb n) [9; 10; 11; 12; 13; 28; 29; 30; 31; 32; 133; 160]%nat.

Definition is_CR (c : ascii) : bool := Nat.eqb (nat_of_ascii c) 13.
Definition is_LF (c : ascii) : bool := Nat.eqb (nat_of_ascii c) 10.

(** [source.splitlines()]: [cur] is the line being read, last character
    first; [after_cr] says the previous character was a carriage return, so
    that a line feed right after it belongs to the same boundary. *)
Fixpoint splitlines_from (s : string) (cur : list ascii) (after_cr : bool)
  : list string :=
  match s with
  | EmptyString =>
      match cur with
      | [] => []
      | _ => [string_of_list_ascii (rev cur)]
      end
  | String c rest =>
      if after_cr && is_LF c then splitlines_from rest cur false
      else if is_linebreak c then
        string_of_list_ascii (rev cur) :: splitlines_from rest [] (is_CR c)
      else splitlines_from rest (c :: cur) false
  end.

Definition splitlines (s : string) : list string := splitlines_from s [] false.

Fixpoint lstrip (s : string) : string :=
  match s with
  | EmptyString => EmptyString
  | String c rest => if is_space c then lstrip rest else s
  end.

Fixpoint rstrip (s : string) : string :=
  match s with
  | EmptyString => EmptyString
  | String c rest =>
      match rstrip rest with
      | EmptyString => if is_space c then EmptyString else String c EmptyString
      | r => String c r
      end
  end.

Definition strip (s : string) : string := rstrip (lstrip s).

(** An index of a slice, clamped as Python does. *)
Definition slice_index (len i : Z) : Z :=
  if i <? 0 then Z.max (i + len) 0 else Z.min i len.

(** [l[start:stop]]. *)
Definition py_slice {A : Type} (l : list A) (start stop : Z) : list A :=
  let n := Z.of_nat (List.length l) in
  let lo := slice_index n start in
  let hi := slice_index n stop in
  firstn (Z.to_nat (hi - lo)) (skipn (Z.to_nat lo) l).

(** ** Steps and the JSON document *)

(** A value of a step's [config]: a Python value or a list of strings. *)
Inductive cfgval : Type :=
| CfgValue (c : constant)
| CfgStrings (l : list string).

Definition CfgStr (s : string) : cfgval := CfgValue (CStr s).

(** The dict [{"kind": kind, "config": config}]; [config] keeps its keys in
    insertion order. *)
Record step : Type := mkStep {
  kind : string;
  config : list (string * cfgval)
}.

Inductive json : Type :=
| JNull
| JBool (b : bool)
| JInt (n : Z)
| JFloat (f : spec_float)
| JStr (s : string)
| JArr (items : list json)
| JObj (members : list (string * json)).

(** The response of the two failure tiers. *)
Definition fallback_response : json :=
  JObj [("steps", JArr []); ("fallbackToLlm", JBool true)].

(** What one run of the script does: it prints one document, or an
    exception leaves [main]. *)
Inductive outcome : Type :=
| Printed (doc : json)
| Uncaught (e : exn).

(** ** Reading attributes of a node *)

(** What an attribute of a node holds: a node or a plain Python value. *)
Inductive pyobj : Type :=
| Node (e : ast.expr)
| Value (c : constant).

(** [getattr(e, "value")] for the classes that have the attribute; [None]
    stands for [hasattr(e, "value")] being false. *)
Definition attr_value (e : ast.expr) : option pyobj :=
  match e with
  | ast.Constant c => Some (Value c)
  | ast.Attribute v _ => Some (Node v)
  | ast.Subscript v _ => Some (Node v)
  | ast.Starred v => Some (Node v)
  | ast.NamedExpr _ v => Some (Node v)
  | ast.Await v => Some (Node v)
  | ast.Yield (Some v) => Some (Node v)
  | ast.Yield None => Some (Value CNone)
  | ast.YieldFrom v => Some (Node v)
  | ast.DictComp _ v => Some (Node v)
  | _ => None
  end.

(** [if hasattr(slc, "value"): slc = slc.value]. *)
Definition unwrap_Index (slc : ast.expr) : pyobj :=
  match attr_value slc with
  | Some o => o
  | None => Node slc
  end.

(** [getattr(e, "attr", None)]. *)
Definition attr_attr (e : ast.expr) : option string :=
  match e with
  | ast.Attribute _ a => Some a
  | _ => None
  end.

(** [slc.elts] when [slc] is a tuple or a list, or has the attribute. *)
Definition attr_elts (slc : pyobj) : option (list ast.expr) :=
  match slc with
  | Node (ast.Tuple elts) => Some elts
  | Node (ast.List elts) => Some elts
  | Node (ast.SetDisplay elts) => Some elts
  | _ => None
  end.

(** ** The extractors *)

(** [get_constant_value]; Python's [None] is [CNone], for a node that is no
    constant as for the constant [None]. *)
Definition get_constant_value (node : ast.expr) : constant :=
  match node with
  | ast.Constant value => value
  | _ => CNone
  end.

Fixpoint get_string_from_node (node : ast.expr) : option string :=
  match node with
  | ast.Constant (CStr s) => Some s
  | ast.Subscript _ slice => get_string_from_node slice
  | _ => None
  end.

(** The loop of [get_column_list]: the elements that resolve, in order. *)
Fixpoint resolved_strings (elts : list ast.expr) : list string :=
  match elts with
  | [] => []
  | e :: rest =>
      match get_string_from_node e with
      | Some s => s :: resolved_strings rest
      | None => resolved_strings rest
      end
  end.

Definition get_column_list (node : ast.expr) : option (list string) :=
  match node with
  | ast.Subscript _ slice =>
      match attr_elts (unwrap_Index slice) with
      | Some elts =>
          match resolved_strings elts with
          | [] => None
          | cols => Some cols
          end
      | None => None
      end
  | _ => None
  end.

(** [unparse_simple] on a node with the given [lineno] and [end_lineno]. *)
Definition unparse_simple (lineno : Z) (end_lineno : option Z)
    (source_lines : list string) : string :=
  let start := lineno - 1 in
  let stop :=
    match end_lineno with
    | Some e => if e =? 0 then lineno else e
    | None => lineno
    end in
  strip (String.concat " " (py_slice source_lines start stop)).

(** ** The visitor *)

Record PipelineExtractor : Type := mkExtractor {
  source : string;
  lines : list string;
  steps : list step;
  fallback_to_llm : bool;
  df_name : string
}.

(** [PipelineExtractor.__init__]. *)
Definition init (src : string) : PipelineExtractor :=
  mkExtractor src (splitlines src) [] false "df".

Definition _add_step (self : PipelineExtractor) (s : step)
  : PipelineExtractor :=
  mkExtractor (source self) (lines self) (steps self ++ [s])
              (fallback_to_llm self) (df_name self).

(** [self.fallback_to_llm = True]. *)
Definition set_fallback (self : PipelineExtractor) : PipelineExtractor :=
  mkExtractor (source self) (lines self) (steps self) true (df_name self).

Definition FILTER_OPS (op : ast.cmpop) : option string :=
  match op with
  | ast.Eq => Some "eq"
  | ast.NotEq => Some "neq"
  | ast.Lt => Some "lt"
  | ast.LtE => Some "lt"
  | ast.Gt => Some "gt"
  | ast.GtE => Some "gt"
  | _ => None
  end.

(** The first idiom that matches, tried left to right. *)
Definition orelse {A : Type} (x y : option A) : option A :=
  match x with
  | Some a => Some a
  | None => y
  end.

(** *** Call idioms (none of them can raise) *)

(** [df = pd.read_csv(...)]. *)
Definition read_csv_idiom (func : ast.expr) (args : list ast.expr)
  : option step :=
  match func with
  | ast.Attribute fvalue attr =>
      if String.eqb attr "read_csv" then
        let name := match fvalue with ast.Name id => Some id | _ => None end in
        match name with
        | Some n =>
            if in_strings n ["pd"; "pandas"] then
              let fname :=
                match args with
                | arg0 :: _ => str_or (get_string_from_node arg0) ""
                | [] => ""
                end in
              Some (mkStep "dataSource"
                      [("fileName", CfgStr (str_or (Some fname) "data.csv"))])
            else None
        | None => None
        end
      else None
  | _ => None
  end.

(** The [by=] keyword of [groupby]: the last one that resolves to a
    non-empty string replaces the group column. *)
Definition groupby_keywords (keywords : list ast.keyword) (group_col : constant)
  : constant :=
  fold_left
    (fun group_col kw =>
       if is_str (ast.arg kw) "by" then
         match truthy_str (get_string_from_node (ast.kw_value kw)) with
         | Some g => CStr g
         | None => group_col
         end
       else group_col)
    keywords group_col.

(** [df = df.groupby(...)], recognized from the [groupby] call alone. *)
Definition groupby_idiom (func : ast.expr) (args : list ast.expr)
    (keywords : list ast.keyword) : option step :=
  match func with
  | ast.Attribute fvalue attr =>
      if String.eqb attr "groupby" then
        let group_col :=
          match args with
          | ast.Constant c :: _ => c
          | arg0 :: _ => of_optional_str (get_string_from_node arg0)
          | [] => CStr ""
          end in
        let agg_col :=
          match fvalue with
          | ast.Subscript _ slice =>
              match truthy_str (get_string_from_node slice) with
              | Some s => CStr s
              | None => group_col
              end
          | _ => group_col
          end in
        let group_col := groupby_keywords keywords group_col in
        Some (mkStep "groupBy"
                [("groupByColumn", CfgValue group_col);
                 ("aggregateColumn", CfgValue agg_col);
                 ("aggregation", CfgStr "count")])
      else None
  | _ => None
  end.

(** The [while prev:] loop of the chained aggregation, from [prev] with the
    current [agg_col] ([group_col] is still empty while the loop runs):
    the final [(group_col, agg_col)].  A node without a [value] attribute
    ends the loop, and so does the plain value a constant holds, after at
    most one more turn that changes nothing. *)
Fixpoint walk_back (prev : ast.expr) (agg_col : string) : string * string :=
  match prev with
  | ast.Call pfunc pargs _ =>
      if is_str (attr_attr pfunc) "groupby" then
        match pargs with
        | arg0 :: _ => (str_or (get_string_from_node arg0) "", agg_col)
        | [] => ("", agg_col)
        end
      else ("", agg_col)
  | ast.Subscript v slice =>
      walk_back v (str_or (get_string_from_node slice) "")
  | ast.Attribute v _ => walk_back v agg_col
  | ast.Starred v => walk_back v agg_col
  | ast.NamedExpr _ v => walk_back v agg_col
  | ast.Await v => walk_back v agg_col
  | ast.Yield (Some v) => walk_back v agg_col
  | ast.YieldFrom v => walk_back v agg_col
  | ast.DictComp _ v => walk_back v agg_col
  | _ => ("", agg_col)
  end.

(** [.sum()], [.mean()], ... after a [groupby]. *)
Definition aggregation_idiom (func : ast.expr) : option step :=
  match func with
  | ast.Attribute fvalue agg_method =>
      if in_strings agg_method ["sum"; "mean"; "count"; "min"; "max"] then
        let '(group_col, agg_col) := walk_back fvalue "" in
        let agg_method :=
          if String.eqb agg_method "mean" then "avg" else agg_method in
        Some (mkStep "groupBy"
                [("groupByColumn", CfgStr group_col);
                 ("aggregateColumn", CfgStr (str_or (Some agg_col) group_col));
                 ("aggregation", CfgStr agg_method)])
      else None
  | _ => None
  end.

(** The keywords of [sort_values], folded over [(col, ascending)]. *)
Definition sort_keywords (keywords : list ast.keyword) (init : string * bool)
  : string * bool :=
  fold_left
    (fun '(col, ascending) kw =>
       let col :=
         if is_str (ast.arg kw) "by" then
           str_or (get_string_from_node (ast.kw_value kw)) col
         else col in
       let ascending :=
         if is_str (ast.arg kw) "ascending" then
           let v := get_constant_value (ast.kw_value kw) in
           if is_None v then ascending else truthy v
         else ascending in
       (col, ascending))
    keywords init.

(** [df = df.sort_values(...)]. *)
Definition sort_values_idiom (func : ast.expr) (args : list ast.expr)
    (keywords : list ast.keyword) : option step :=
  match func with
  | ast.Attribute _ attr =>
      if String.eqb attr "sort_values" then
        let col :=
          match args with
          | arg0 :: _ => str_or (get_string_from_node arg0) ""
          | [] => ""
          end in
        let '(col, ascending) := sort_keywords keywords (col, true) in
        Some (mkStep "sort"
                [("column", CfgStr col);
                 ("direction", CfgStr (if ascending then "asc" else "desc"))])
      else None
  | _ => None
  end.

(** The elements that resolve to a non-empty string ([if s:]), in order. *)
Fixpoint truthy_strings (elts : list ast.expr) : list string :=
  match elts with
  | [] => []
  | e :: rest =>
      match truthy_str (get_string_from_node e) with
      | Some s => s :: truthy_strings rest
      | None => truthy_strings rest
      end
  end.

(** [isinstance(e, (ast.List, ast.Tuple))], with the elements. *)
Definition list_or_tuple (e : ast.expr) : option (list ast.expr) :=
  match e with
  | ast.List elts => Some elts
  | ast.Tuple elts => Some elts
  | _ => None
  end.

Record melt_vars : Type := mkMelt {
  id_vars : list string;
  value_vars : list string;
  value_name : string;
  var_name : string
}.

(** One turn of the loop over the keywords of [melt]. *)
Definition melt_keyword (m : melt_vars) (kw : ast.keyword) : melt_vars :=
  if is_str (ast.arg kw) "id_vars" then
    match list_or_tuple (ast.kw_value kw) with
    | Some elts =>
        mkMelt (id_vars m ++ truthy_strings elts) (value_vars m)
               (value_name m) (var_name m)
    | None =>
        match truthy_str (get_string_from_node (ast.kw_value kw)) with
        | Some s => mkMelt (id_vars m ++ [s]) (value_vars m)
                           (value_name m) (var_name m)
        | None => m
        end
    end
  else if is_str (ast.arg kw) "value_vars" then
    match list_or_tuple (ast.kw_value kw) with
    | Some elts =>
        mkMelt (id_vars m) (value_vars m ++ truthy_strings elts)
               (value_name m) (var_name m)
    | None => m
    end
  else if is_str (ast.arg kw) "value_name" then
    mkMelt (id_vars m) (value_vars m)
           (str_or (get_string_from_node (ast.kw_value kw)) (value_name m))
           (var_name m)
  else if is_str (ast.arg kw) "var_name" then
    mkMelt (id_vars m) (value_vars m) (value_name m)
           (str_or (get_string_from_node (ast.kw_value kw)) (var_name m))
  else m.

(** [df.melt(...)]. *)
Definition melt_idiom (func : ast.expr) (keywords : list ast.keyword)
  : option step :=
  match func with
  | ast.Attribute _ attr =>
      if String.eqb attr "melt" then
        let m := fold_left melt_keyword keywords
                   (mkMelt [] [] "value" "variable") in
        match value_vars m with
        | [] => None
        | _ =>
            Some (mkStep "reshape"
                    [("keyColumn", CfgStr (var_name m));
                     ("valueColumn", CfgStr (value_name m));
                     ("pivotColumns", CfgStrings (value_vars m))])
        end
      else None
  | _ => None
  end.

(** The block [if isinstance(value, ast.Call): ...] of [visit_Assign]: the
    step it adds before returning, or [None] when it falls through. *)
Definition call_idioms (value : ast.expr) : option step :=
  match value with
  | ast.Call func args keywords =>
      orelse (read_csv_idiom func args)
     (orelse (groupby_idiom func args keywords)
     (orelse (aggregation_idiom func)
     (orelse (sort_values_idiom func args keywords)
             (melt_idiom func keywords))))
  | _ => None
  end.

(** *** The chart idiom of [visit_Expr] *)

Definition chart_type (chart_attr : string) : string :=
  if String.eqb chart_attr "plot" then "line"
  else if String.eqb chart_attr "scatter" then "scatter"
  else if String.eqb chart_attr "pie" then "pie"
  else "bar".

(** [isinstance(e, ast.Name) and e.id == name]. *)
Definition is_Name (e : ast.expr) (name : string) : bool :=
  match e with
  | ast.Name id => String.eqb id name
  | _ => false
  end.

Definition chart_idiom (value : ast.expr) : option step :=
  match value with
  | ast.Call (ast.Attribute fvalue chart_attr) args _ =>
      match fvalue with
      | ast.Attribute _ _ =>
          if is_str (attr_attr fvalue) "pyplot" || is_Name fvalue "plt" then
            if in_strings chart_attr ["bar"; "plot"; "scatter"; "pie"] then
              let '(x_axis, y_axis) :=
                match args with
                | [] => ("", "")
                | [arg0] => ("", str_or (get_string_from_node arg0) "")
                | arg0 :: arg1 :: _ =>
                    (str_or (get_string_from_node arg0) "",
                     str_or (get_string_from_node arg1) "")
                end in
              Some (mkStep "chart"
                      [("chartType", CfgStr (chart_type chart_attr));
                       ("xAxis", CfgStr x_axis);
                       ("yAxis", CfgStr y_axis)])
            else None
          else None
      | _ => None
      end
  | _ => None
  end.

(** [visit_Expr]; the [generic_visit] it ends with when nothing matched
    walks expressions only, which no method of the visitor handles. *)
Definition visit_Expr (self : PipelineExtractor) (value : ast.expr)
  : PipelineExtractor :=
  match chart_idiom value with
  | Some s => _add_step self s
  | None => self
  end.

(** ** The interpreter

    What the script takes from the Python runtime it runs on. *)

Record interpreter : Type := mkInterpreter {
  (** [ast.parse]. *)
  ast_parse : string -> parse_outcome;
  (** [sys.get_int_max_str_digits()]: the largest number of decimal digits
      an [int] may have when it is converted to text; [0] turns the limit
      off. *)
  int_max_str_digits : Z;
  (** [repr] of a float, of the complex number with the given imaginary
      part, and of a bytes object. *)
  float_repr : spec_float -> string;
  complex_repr : spec_float -> string;
  bytes_repr : string -> string
}.

Section Interpreter.

Variable I : interpreter.

(** [n] has more than [int_max_str_digits] decimal digits. *)
Definition exceeds_digit_limit (n : Z) : bool :=
  (0 <? int_max_str_digits I)
  && (10 ^ int_max_str_digits I <=? Z.abs n).

Definition int_to_str (n : Z) : result string :=
  if exceeds_digit_limit n then Raised ValueError
  else Ok (DecimalString.NilZero.string_of_int (Z.to_int n)).

(** [str(val)]. *)
Definition py_str (val : constant) : result string :=
  match val with
  | CNone => Ok "None"
  | CBool b => Ok (if b then "True" else "False")
  | CInt n => int_to_str n
  | CFloat f => Ok (float_repr I f)
  | CComplex im => Ok (complex_repr I im)
  | CStr s => Ok s
  | CBytes b => Ok (bytes_repr I b)
  | CEllipsis => Ok "Ellipsis"
  end.

(** *** Subscript idioms: filter, then select *)

(** [df = df[df["col"] op value]], from the slice of the right-hand side. *)
Definition filter_idiom (slice : ast.expr) : result (option step) :=
  match unwrap_Index slice with
  | Node (ast.Compare left_node ops [right_node]) =>
      match ops with
      | [] => Raised IndexError
      | op :: _ =>
          match truthy_str (get_string_from_node left_node), FILTER_OPS op with
          | Some col, Some convoy_op =>
              let val := get_constant_value right_node in
              if is_None val then Ok None
              else
                text <- py_str val ;;
                Ok (Some (mkStep "filter"
                            [("column", CfgStr col);
                             ("operator", CfgStr convoy_op);
                             ("value", CfgStr text)]))
          | _, _ => Ok None
          end
      end
  | _ => Ok None
  end.

(** The block [if isinstance(value, ast.Subscript): ...] of [visit_Assign]:
    the step it adds before returning, or [None] when it falls through. *)
Definition subscript_idioms (value : ast.expr) : result (option step) :=
  match value with
  | ast.Subscript _ slice =>
      found <- filter_idiom slice ;;
      match found with
      | Some s => Ok (Some s)
      | None =>
          match get_column_list value with
          | Some list_cols =>
              Ok (Some (mkStep "select" [("columns", CfgStrings list_cols)]))
          | None => Ok None
          end
      end
  | _ => Ok None
  end.

(** *** The tail of [visit_Assign] *)

(** [df["new_col"] = expression], then the check of the tracked name; the
    final [generic_visit] walks expressions only. *)
Definition assign_tail (self : PipelineExtractor) (target : ast.expr)
    (lineno : Z) (end_lineno : option Z) : PipelineExtractor :=
  let unmatched (self : PipelineExtractor) :=
    if is_Name target (df_name self) then set_fallback self else self in
  match target with
  | ast.Subscript _ _ =>
      match get_string_from_node target with
      | Some col_name =>
          let expr_str := unparse_simple lineno end_lineno (lines self) in
          if nonempty expr_str then
            _add_step self
              (mkStep "computedColumn"
                 [("newColumnName", CfgStr col_name);
                  ("expression", CfgStr expr_str)])
          else unmatched (set_fallback self)
      | None => unmatched self
      end
  | _ => unmatched self
  end.

(** The two blocks of idioms on the right-hand side, in order: the step
    [visit_Assign] adds before it returns, or [None] when both fall
    through. *)
Definition assign_idioms (value : ast.expr) : result (option step) :=
  found <- subscript_idioms value ;;
  Ok (orelse found (call_idioms value)).

Definition visit_Assign (self : PipelineExtractor) (targets : list ast.expr)
    (value : ast.expr) (lineno : Z) (end_lineno : option Z)
  : result PipelineExtractor :=
  match targets with
  | [target] =>
      found <- assign_idioms value ;;
      match found with
      | Some s => Ok (_add_step self s)
      | None => Ok (assign_tail self target lineno end_lineno)
      end
  | _ => Ok self
  end.

(** *** Traversal: [NodeVisitor.visit] and [generic_visit] on statements *)

Fixpoint visit (node : ast.stmt) (self : PipelineExtractor) {struct node}
  : result PipelineExtractor :=
  match node with
  | ast.Assign targets value lineno end_lineno =>
      visit_Assign self targets value lineno end_lineno
  | ast.Expr value => Ok (visit_Expr self value)
  | ast.OtherStmt nested =>
      (fix generic_visit (body : list ast.stmt) (self : PipelineExtractor)
         {struct body} : result PipelineExtractor :=
         match body with
         | [] => Ok self
         | child :: rest =>
             self' <- visit child self ;;
             generic_visit rest self'
         end) nested self
  end.

(** [generic_visit] on a node whose nested statements are [body]; it is
    also how [visit] treats the [Module] at the root. *)
Fixpoint generic_visit (body : list ast.stmt) (self : PipelineExtractor)
  : result PipelineExtractor :=
  match body with
  | [] => Ok self
  | child :: rest =>
      self' <- visit child self ;;
      generic_visit rest self'
  end.

(** *** [json.dumps] and [main] *)

Definition dumps_constant (c : constant) : result json :=
  match c with
  | CNone => Ok JNull
  | CBool b => Ok (JBool b)
  | CInt n => if exceeds_digit_limit n then Raised ValueError else Ok (JInt n)
  | CFloat f => Ok (JFloat f)
  | CStr s => Ok (JStr s)
  | CComplex _ => Raised TypeError
  | CBytes _ => Raised TypeError
  | CEllipsis => Raised TypeError
  end.

Definition dumps_cfgval (v : cfgval) : result json :=
  match v with
  | CfgValue c => dumps_constant c
  | CfgStrings l => Ok (JArr (map JStr l))
  end.

Fixpoint dumps_config (config : list (string * cfgval))
  : result (list (string * json)) :=
  match config with
  | [] => Ok []
  | (key, v) :: rest =>
      j <- dumps_cfgval v ;;
      js <- dumps_config rest ;;
      Ok ((key, j) :: js)
  end.

(** The dict [{"type": s["kind"], "config": s["config"]}], serialized. *)
Definition dumps_node (s : step) : result json :=
  cfg <- dumps_config (config s) ;;
  Ok (JObj [("type", JStr (kind s)); ("config", JObj cfg)]).

Fixpoint dumps_nodes (l : list step) : result (list json) :=
  match l with
  | [] => Ok []
  | s :: rest =>
      j <- dumps_node s ;;
      js <- dumps_nodes rest ;;
      Ok (j :: js)
  end.

(** [print(json.dumps(result))]: the document printed, or the exception
    [json.dumps] raises, which nothing catches. *)
Definition print_result (extractor : PipelineExtractor) : outcome :=
  match dumps_nodes (steps extractor) with
  | Ok nodes =>
      Printed
        (JObj [("steps", JArr nodes);
               ("fallbackToLlm",
                JBool (fallback_to_llm extractor
                       || (List.length (steps extractor) =? 0)%nat))])
  | Raised e => Uncaught e
  end.

(** [main] after a successful parse: the traversal inside
    [try ... except Exception], then the output. *)
Definition translate (src : string) (tree : list ast.stmt) : outcome :=
  match generic_visit tree (init src) with
  | Raised e =>
      if is_Exception e then Printed fallback_response else Uncaught e
  | Ok extractor => print_result extractor
  end.

Definition main (src : string) : outcome :=
  match ast_parse I src with
  | ParseRaises e =>
      if is_SyntaxError e then Printed fallback_response else Uncaught e
  | Parsed tree => translate src tree
  end.

(** ** The statements that ask for the fallback *)

(** An assignment with the single target [df] that matches no idiom. *)
Definition unrecognized_assignment (df : string) (node : ast.stmt) : bool :=
  match node with
  | ast.Assign [target] value _ _ =>
      match assign_idioms value with
      | Ok None => is_Name target df
      | _ => false
      end
  | _ => false
  end.

(** An assignment [x["col"] = value] that matches no idiom of the
    right-hand side and whose span, read from [source_lines], is empty. *)
Definition empty_span_column (source_lines : list string) (node : ast.stmt)
  : bool :=
  match node with
  | ast.Assign [ast.Subscript base slice] value lineno end_lineno =>
      match assign_idioms value with
      | Ok None =>
          match get_string_from_node (ast.Subscript base slice) with
          | Some _ =>
              negb (nonempty (unparse_simple lineno end_lineno source_lines))
          | None => false
          end
      | _ => false
      end
  | _ => false
  end.

(** Either of the two. *)
Definition asks_fallback (source_lines : list string) (df : string)
    (node : ast.stmt) : bool :=
  unrecognized_assignment df node || empty_span_column source_lines node.

End Interpreter.

(** Every statement of a tree, nested ones included, in the order the
    traversal meets them. *)
Fixpoint descendants (node : ast.stmt) : list ast.stmt :=
  node :: match node with
          | ast.OtherStmt nested => flat_map descendants nested
          | _ => []
          end.

Definition statements (tree : list ast.stmt) : list ast.stmt :=
  flat_map descendants tree.

(** What a fault-free stretch of the traversal over the statements
    [reached] does to the extractor: it keeps the source, its lines and the
    tracked name, appends steps, and sets the flag when one of the
    statements asks for it. *)
Definition advances (I : interpreter) (self self' : PipelineExtractor)
    (reached : list ast.stmt) : Prop :=
  source self' = source self
  /\ lines self' = lines self
  /\ df_name self' = df_name self
  /\ (exists added, steps self' = (steps self ++ added)%list)
  /\ fallback_to_llm self' =
     fallback_to_llm self
     || existsb (asks_fallback I (lines self) (df_name self)) reached.

(** The causes of the fallback in one run on the text [src]: the parser
    raised a syntax error; or the traversal raised; or some statement of the
    tree asks for the fallback; or the traversal ended with no step. *)
Definition fallback_cause (I : interpreter) (src : string) : Prop :=
  ast_parse I src = ParseRaises SyntaxError
  \/ exists tree,
       ast_parse I src = Parsed tree
       /\ ((exists e, generic_visit I tree (init src) = Raised e)
           \/ (exists node,
                 In node (statements tree)
                 /\ (unrecognized_assignment I "df" node = true
                     \/ empty_span_column I (splitlines src) node = true))
           \/ (exists extractor,
                 generic_visit I tree (init src) = Ok extractor
                 /\ steps extractor = [])).

(** ** Reading the printed document *)

Fixpoint member (key : string) (members : list (string * json)) : option json :=
  match members with
  | [] => None
  | (k, v) :: rest => if String.eqb k key then Some v else member key rest
  end.

(** The field [fallbackToLlm] of a document. *)
Definition fallbackToLlm (doc : json) : option bool :=
  match doc with
  | JObj members =>
      match member "fallbackToLlm" members with
      | Some (JBool b) => Some b
      | _ => None
      end
  | _ => None
  end.

(** A step as the document shows it. *)
Definition json_step (type : string) (config : list (string * json)) : json :=
  JObj [("type", JStr type); ("config", JObj config)].

Definition response (nodes : list json) (fallback : bool) : json :=
  JObj [("steps", JArr nodes); ("fallbackToLlm", JBool fallback)].

(** ** Vocabulary of the specification *)

(** A statement that assigns to the variable [df]: an assignment one of
    whose targets is the name. *)
Definition assigns_to (df : string) (node : ast.stmt) : bool :=
  match node with
  | ast.Assign targets _ _ _ => existsb (fun t => is_Name t df) targets
  | _ => false
  end.

(** The element resolves to a string. *)
Definition resolves (e : ast.expr) : bool :=
  match get_string_from_node e with
  | Some _ => true
  | None => false
  end.

(** The nodes the chained aggregation unwinds through their [value]. *)
Inductive wrapper : Type :=
| WSubscript (slice : ast.expr)
| WAttribute (attr : string)
| WStarred
| WNamedExpr (target : ast.expr)
| WAwait
| WYield
| WYieldFrom
| WDictComp (key : ast.expr).

Definition wrap (w : wrapper) (inner : ast.expr) : ast.expr :=
  match w with
  | WSubscript slice => ast.Subscript inner slice
  | WAttribute attr => ast.Attribute inner attr
  | WStarred => ast.Starred inner
  | WNamedExpr target => ast.NamedExpr target inner
  | WAwait => ast.Await inner
  | WYield => ast.Yield (Some inner)
  | WYieldFrom => ast.YieldFrom inner
  | WDictComp key => ast.DictComp key inner
  end.

(** [inner] under the wrappers [ws], the outermost first. *)
Definition wrap_all (ws : list wrapper) (inner : ast.expr) : ast.expr :=
  fold_right wrap inner ws.

(** The column selection between the [groupby] call and the aggregation:
    the index of the subscript nearest to the call. *)
Fixpoint column_selection (ws : list wrapper) : option ast.expr :=
  match ws with
  | [] => None
  | w :: inner =>
      match column_selection inner with
      | Some slice => Some slice
      | None =>
          match w with
          | WSubscript slice => Some slice
          | _ => None
          end
      end
  end.

(** The string an argument resolves to, empty when it resolves to none. *)
Definition axis (e : option ast.expr) : string :=
  match e with
  | Some a =>
      match get_string_from_node a with
      | Some s => s
      | None => ""
      end
  | None => ""
  end.

(** A node at which the unwinding of the chained aggregation ends: it has
    no [value] link to follow.  Every call is such a node, whatever it
    calls. *)
Definition ends_walk (e : ast.expr) : bool :=
  match e with
  | ast.Subscript _ _ => false
  | ast.Attribute _ _ => false
  | ast.Starred _ => false
  | ast.NamedExpr _ _ => false
  | ast.Await _ => false
  | ast.Yield (Some _) => false
  | ast.YieldFrom _ => false
  | ast.DictComp _ _ => false
  | _ => true
  end.

(** The group column the node at the end of the unwinding gives: the
    string of its first positional argument when it is a [groupby] call,
    and the empty string when it is anything else. *)
Definition origin_column (core : ast.expr) : string :=
  match core with
  | ast.Call pfunc pargs _ =>
      if is_str (attr_attr pfunc) "groupby" then axis (nth_error pargs 0)
      else ""
  | _ => ""
  end.


(** The call's function is an attribute of an attribute named [pyplot]. *)
Definition rooted_at_pyplot (value : ast.expr) : bool :=
  match value with
  | ast.Call (ast.Attribute (ast.Attribute _ a) _) _ _ => String.eqb a "pyplot"
  | _ => false
  end.

(** Renaming of the identifiers an expression reads. *)
Fixpoint rename (f : string -> string) (e : ast.expr) : ast.expr :=
  match e with
  | ast.Constant c => ast.Constant c
  | ast.Name id => ast.Name (f id)
  | ast.Attribute v a => ast.Attribute (rename f v) a
  | ast.Subscript v s => ast.Subscript (rename f v) (rename f s)
  | ast.Call fn args kws =>
      ast.Call (rename f fn) (map (rename f) args)
               (map (fun kw => (fst kw, rename f (snd kw))) kws)
  | ast.Compare l ops cs => ast.Compare (rename f l) ops (map (rename f) cs)
  | ast.Tuple elts => ast.Tuple (map (rename f) elts)
  | ast.List elts => ast.List (map (rename f) elts)
  | ast.SetDisplay elts => ast.SetDisplay (map (rename f) elts)
  | ast.Starred v => ast.Starred (rename f v)
  | ast.NamedExpr t v => ast.NamedExpr (rename f t) (rename f v)
  | ast.Await v => ast.Await (rename f v)
  | ast.Yield (Some v) => ast.Yield (Some (rename f v))
  | ast.Yield None => ast.Yield None
  | ast.YieldFrom v => ast.YieldFrom (rename f v)
  | ast.DictComp k v => ast.DictComp (rename f k) (rename f v)
  | ast.OtherExpr => ast.OtherExpr
  end.

Definition rename_obj (f : string -> string) (o : pyobj) : pyobj :=
  match o with
  | Node e => Node (rename f e)
  | Value c => Value c
  end.

Definition rename_keyword (f : string -> string) (kw : ast.keyword)
  : ast.keyword :=
  (fst kw, rename f (snd kw)).

(** A renaming that keeps the module aliases of [read_csv] apart from the
    other identifiers. *)
Definition keeps_aliases (f : string -> string) : Prop :=
  forall id,
    in_strings (f id) ["pd"; "pandas"] = in_strings id ["pd"; "pandas"].


(** ** Sample scripts and a sample interpreter *)

Module Sample.

Definition newline : string := String (ascii_of_nat 10) "".

Definition df : ast.expr := ast.Name "df".
Definition str (s : string) : ast.expr := ast.Constant (CStr s).

(** [df = pd.read_csv('a.csv')] on the given line. *)
Definition load (line : Z) : ast.stmt :=
  ast.Assign [df]
    (ast.Call (ast.Attribute (ast.Name "pd") "read_csv") [str "a.csv"] [])
    line (Some line).

(** A load followed by an assignment no idiom matches. *)
Definition load_dropna_src : string :=
  "df = pd.read_csv('a.csv')" ++ newline ++ "df = df.dropna()".

Definition load_dropna : list ast.stmt :=
  [load 1;
   ast.Assign [df] (ast.Call (ast.Attribute df "dropna") [] []) 2 (Some 2)].

(** The same with a second target on the last assignment. *)
Definition load_two_targets_src : string :=
  "df = pd.read_csv('a.csv')" ++ newline ++ "df = backup = df.dropna()".

Definition load_two_targets : list ast.stmt :=
  [load 1;
   ast.Assign [df; ast.Name "backup"]
     (ast.Call (ast.Attribute df "dropna") [] []) 2 (Some 2)].

(** A filter written over other names. *)
Definition other_names_src : string := "x = y[y['a'] > 1]".

Definition other_names : list ast.stmt :=
  [ast.Assign [ast.Name "x"]
     (ast.Subscript (ast.Name "y")
        (ast.Compare (ast.Subscript (ast.Name "y") (str "a"))
           [ast.Gt] [ast.Constant (CInt 1)]))
     1 (Some 1)].

(** A selection one element of which is no string. *)
Definition mixed_select_src : string := "df = df[['a', 1]]".

Definition mixed_select : list ast.stmt :=
  [ast.Assign [df]
     (ast.Subscript df (ast.List [str "a"; ast.Constant (CInt 1)]))
     1 (Some 1)].

(** A text the grammar rejects. *)
Definition unclosed_src : string := "df = df[".

(** A load, then a filter against an integer of more than 4300 decimal
    digits, written in hexadecimal: [2 * 16 ^ 3571]. *)
Definition zeros (n : nat) : string := string_of_list_ascii (repeat "0"%char n).

Definition huge_filter_src : string :=
  "df = pd.read_csv('a.csv')" ++ newline
  ++ "df = df[df['a'] > 0x2" ++ zeros 3571 ++ "]".

Definition huge_test : ast.stmt :=
  ast.Assign [df]
    (ast.Subscript df
       (ast.Compare (ast.Subscript df (str "a"))
          [ast.Gt] [ast.Constant (CInt (2 * 16 ^ 3571))]))
    2 (Some 2).

Definition huge_filter : list ast.stmt := [load 1; huge_test].

(** An aggregation with another call between it and the [groupby] call. *)
Definition through_call_src : string := "df = df.groupby('a').head(3).sum()".

Definition through_call : list ast.stmt :=
  [ast.Assign [df]
     (ast.Call
        (ast.Attribute
           (ast.Call
              (ast.Attribute
                 (ast.Call (ast.Attribute df "groupby") [str "a"] [])
                 "head")
              [ast.Constant (CInt 3)] [])
           "sum")
        [] [])
     1 (Some 1)].

(** An aggregation over a column selection, with a subscript that is no
    column nearer to the [groupby] call. *)
Definition two_subscripts_src : string := "df = df.groupby('a')[0]['b'].sum()".

Definition two_subscripts : list ast.stmt :=
  [ast.Assign [df]
     (ast.Call
        (ast.Attribute
           (ast.Subscript
              (ast.Subscript
                 (ast.Call (ast.Attribute df "groupby") [str "a"] [])
                 (ast.Constant (CInt 0)))
              (str "b"))
           "sum")
        [] [])
     1 (Some 1)].

(** The step of [load]. *)
Definition load_step : step :=
  mkStep "dataSource" [("fileName", CfgStr "a.csv")].

(** The renaming of [df] into [y]. *)
Definition df_to_y (id : string) : string :=
  if String.eqb id "df" then "y" else id.

(** A parser that knows the sample scripts. *)
Definition parse (src : string) : parse_outcome :=
  if String.eqb src load_dropna_src then Parsed load_dropna
  else if String.eqb src load_two_targets_src then Parsed load_two_targets
  else if String.eqb src other_names_src then Parsed other_names
  else if String.eqb src mixed_select_src then Parsed mixed_select
  else if String.eqb src huge_filter_src then Parsed huge_filter
  else ParseRaises SyntaxError.

(** The sample scripts hold no float, complex or bytes literal; the three
    renderings are never called on them. *)
Definition cpython : interpreter :=
  mkInterpreter parse 4300 (fun _ => "") (fun _ => "") (fun _ => "").

End Sample.

(** ** Further vocabulary: the traversal as a whole *)

(** The assignments and expression statements of a statement, nested ones
    included, in source order. *)
Fixpoint simple_statements (node : ast.stmt) : list ast.stmt :=
  match node with
  | ast.OtherStmt nested => flat_map simple_statements nested
  | _ => [node]
  end.

(** The same for a tree: the script with every nesting removed. *)
Definition flatten (tree : list ast.stmt) : list ast.stmt :=
  flat_map simple_statements tree.

(** The extractor [self] continued from [base]: the steps of [base] come
    first and its flag is kept. *)
Definition replay (base self : PipelineExtractor) : PipelineExtractor :=
  mkExtractor (source base) (lines self) (steps base ++ steps self)
              (fallback_to_llm base || fallback_to_llm self) (df_name self).

(** The step a statement adds when it is visited with the lines
    [source_lines]. *)
Definition emits (I : interpreter) (source_lines : list string)
    (node : ast.stmt) (s : step) : Prop :=
  match node with
  | ast.Assign [target] value lineno end_lineno =>
      assign_idioms I value = Ok (Some s)
      \/ (assign_idioms I value = Ok None
          /\ exists base slice col_name,
              target = ast.Subscript base slice
              /\ get_string_from_node target = Some col_name
              /\ nonempty (unparse_simple lineno end_lineno source_lines)
                 = true
              /\ s = mkStep "computedColumn"
                       [("newColumnName", CfgStr col_name);
                        ("expression",
                         CfgStr (unparse_simple lineno end_lineno
                                   source_lines))])
  | ast.Expr value => chart_idiom value = Some s
  | _ => False
  end.

(** ** Further vocabulary: the shape of a step *)

Fixpoint lookup (key : string) (config : list (string * cfgval))
  : option cfgval :=
  match config with
  | [] => None
  | (k, v) :: rest => if String.eqb k key then Some v else lookup key rest
  end.

Fixpoint strings_eqb (a b : list string) : bool :=
  match a, b with
  | [], [] => true
  | x :: a', y :: b' => String.eqb x y && strings_eqb a' b'
  | _, _ => false
  end.

(** The value under [key] is a string among [allowed]. *)
Definition one_of (key : string) (allowed : list string) (s : step) : bool :=
  match lookup key (config s) with
  | Some (CfgValue (CStr v)) => in_strings v allowed
  | _ => false
  end.

(** The kinds of step, each with the keys of its config in order and the
    closed vocabularies of its fields. *)
Definition well_formed_step (s : step) : bool :=
  let keys := map fst (config s) in
  let k := kind s in
  (String.eqb k "dataSource" && strings_eqb keys ["fileName"])
  || (String.eqb k "filter"
      && strings_eqb keys ["column"; "operator"; "value"]
      && one_of "operator" ["eq"; "neq"; "lt"; "gt"] s)
  || (String.eqb k "select" && strings_eqb keys ["columns"])
  || (String.eqb k "groupBy"
      && strings_eqb keys ["groupByColumn"; "aggregateColumn"; "aggregation"]
      && one_of "aggregation" ["count"; "sum"; "avg"; "min"; "max"] s)
  || (String.eqb k "sort"
      && strings_eqb keys ["column"; "direction"]
      && one_of "direction" ["asc"; "desc"] s)
  || (String.eqb k "reshape"
      && strings_eqb keys ["keyColumn"; "valueColumn"; "pivotColumns"])
  || (String.eqb k "computedColumn"
      && strings_eqb keys ["newColumnName"; "expression"])
  || (String.eqb k "chart"
      && strings_eqb keys ["chartType"; "xAxis"; "yAxis"]
      && one_of "chartType" ["bar"; "line"; "scatter"; "pie"] s).

(** ** Further vocabulary: what [json.dumps] accepts *)

(** The constant a one-shot [groupby] assignment passes as its first
    positional argument, if it is one. *)
Definition groupby_constant (node : ast.stmt) : option constant :=
  match node with
  | ast.Assign [_] (ast.Call (ast.Attribute _ attr) (ast.Constant c :: _) _)
      _ _ =>
      if String.eqb attr "groupby" then Some c else None
  | _ => None
  end.

Definition serializable (I : interpreter) (c : constant) : bool :=
  match dumps_constant I c with
  | Ok _ => true
  | Raised _ => false
  end.

(** Every value of the config is a string or a list of strings. *)
Definition plain_step (s : step) : bool :=
  forallb
    (fun entry =>
       match snd entry with
       | CfgValue (CStr _) => true
       | CfgStrings _ => true
       | _ => false
       end)
    (config s).

(** ** Further vocabulary: keywords and lines *)

(** The last element of [l] on which [f] gives a value. *)
Fixpoint last_some {A B : Type} (f : A -> option B) (l : list A) : option B :=
  match l with
  | [] => None
  | x :: rest =>
      match last_some f rest with
      | Some b => Some b
      | None => f x
      end
  end.

(** The column a keyword [by=...] names, when it resolves to a non-empty
    string. *)
Definition by_column (kw : ast.keyword) : option string :=
  if is_str (ast.arg kw) "by" then
    truthy_str (get_string_from_node (ast.kw_value kw))
  else None.

(** The truth value a keyword [ascending=...] gives, when its value is a
    constant other than [None]. *)
Definition ascending_value (kw : ast.keyword) : option bool :=
  if is_str (ast.arg kw) "ascending" then
    let v := get_constant_value (ast.kw_value kw) in
    if is_None v then None else Some (truthy v)
  else None.

(** The keyword is not [id_vars=...]. *)
Definition not_id_vars (kw : ast.keyword) : bool :=
  negb (is_str (ast.arg kw) "id_vars").

(** The keyword is not [value_vars=...]. *)
Definition not_value_vars (kw : ast.keyword) : bool :=
  negb (is_str (ast.arg kw) "value_vars").

(** A line made of whitespace only. *)
Fixpoint blank (s : string) : bool :=
  match s with
  | EmptyString => true
  | String c rest => is_space c && blank rest
  end.

(** ** More sample scripts *)

Module Examples.

(** A script of imports only: no assignment, no expression statement. *)
Definition imports_src : string := "import pandas as pd".
Definition imports : list ast.stmt := [ast.OtherStmt []].

(** [df = df.dropna()] on the second line. *)
Definition dropna : ast.stmt :=
  ast.Assign [Sample.df]
    (ast.Call (ast.Attribute Sample.df "dropna") [] []) 2 (Some 2).

(** [df = df.groupby(b'x')]. *)
Definition groupby_bytes_src : string := "df = df.groupby(b'x')".

(** [df = df.groupby(['a', 'b'])]. *)
Definition groupby_list_src : string := "df = df.groupby(['a', 'b'])".
Definition column_list : ast.expr :=
  ast.List [Sample.str "a"; Sample.str "b"].

(** [df['c'] = df['a'] * 2]; the product is a node of a class the
    extractor does not inspect. *)
Definition computed_src : string := "df['c'] = df['a'] * 2".

(** [df = df[0 < df['a'] < 5]]. *)
Definition chained_src : string := "df = df[0 < df['a'] < 5]".

(** [df = df.melt(id_vars=['a'])]. *)
Definition melt_src : string := "df = df.melt(id_vars=['a'])".
Definition melt_keywords : list ast.keyword :=
  [(Some "id_vars", ast.List [Sample.str "a"])].

End Examples.

(** * The chart renderer

    A shallow embedding of [server/scripts/render_chart.py]: the helpers
    [get_num] and [get_str], and [main] up to the drawing.  The values read
    by [json.load] are [json] values, a dict being the list of its items;
    the drawing itself (matplotlib) and the conversions that need floating
    point arithmetic or Python's number syntax belong to the runtime. *)

Module render_chart.

Inductive pyerr : Type :=
| AttributeError
| TypeError
| ValueError
| OverflowError
| OtherError.

Inductive res (A : Type) : Type :=
| Val (a : A)
| Exc (e : pyerr).

Arguments Val {A} a.
Arguments Exc {A} e.

Definition and_then {A B : Type} (r : res A) (k : A -> res B) : res B :=
  match r with
  | Val a => k a
  | Exc e => Exc e
  end.

Notation "x <-- r ;; k" := (and_then r (fun x => k))
  (at level 61, r at next level, right associativity).

(** What [json.load(sys.stdin)] does. *)
Inductive load_outcome : Type :=
| Loaded (payload : json)
| JSONDecodeError (message : string)
| LoadRaises (e : pyerr).

(** What the drawing receives. *)
Record figure : Type := mkFigure {
  chart_type : string;
  x_axis : json;
  y_axis : json;
  color_by : json;
  data : list json;
  x_vals : list json;
  y_vals : list spec_float;
  width : Z;
  height : Z;
  fmt : string
}.

Record runtime : Type := mkRuntime {
  json_load : string -> load_outcome;
  (** [float(n)] for an int; [None] is [OverflowError]. *)
  float_of_int : Z -> option spec_float;
  (** [float(s)] for a str; [None] is [ValueError]. *)
  float_of_str : string -> option spec_float;
  (** [int(s)] for a str; [None] is [ValueError]. *)
  int_of_str : string -> option Z;
  (** [str(v)] for a value that is no str. *)
  repr : json -> string;
  (** [str(e)] for an exception caught; the model lets it depend on the
      class of the exception only. *)
  error_text : pyerr -> string;
  (** The figure drawn and saved: the SVG text, or the base64 text of the
      PNG bytes. *)
  savefig : figure -> res string
}.

(** What one run does: it prints one document, or an exception ends it. *)
Inductive run : Type :=
| Output (doc : json)
| Crash (e : pyerr).

Definition error_doc (message : string) : json :=
  JObj [("error", JStr message)].

Definition image_doc (image : string) : json :=
  JObj [("image", JStr image)].

(** ** Python values *)

(** [bool(v)]. *)
Definition truth (v : json) : bool :=
  match v with
  | JNull => false
  | JBool b => b
  | JInt n => negb (n =? 0)
  | JFloat f => negb (is_zero_float f)
  | JStr s => nonempty s
  | JArr items => match items with [] => false | _ => true end
  | JObj members => match members with [] => false | _ => true end
  end.

(** [v or d]. *)
Definition or_else (v d : json) : json := if truth v then v else d.

(** [d.get(key)], [None] being [JNull]: an [AttributeError] when [d] is no
    dict, a [TypeError] when [key] cannot be hashed; a key that is no str
    is never found, as the keys of a dict read from JSON are strs. *)
Definition dict_get (d key : json) : res json :=
  match d with
  | JObj members =>
      match key with
      | JStr k =>
          match member k members with
          | Some v => Val v
          | None => Val JNull
          end
      | JArr _ => Exc TypeError
      | JObj _ => Exc TypeError
      | _ => Val JNull
      end
  | _ => Exc AttributeError
  end.

(** A character is a code point below 256. *)
Definition lower_char (c : ascii) : ascii :=
  let n := nat_of_ascii c in
  if ((65 <=? n) && (n <=? 90) || (192 <=? n) && (n <=? 214)
      || (216 <=? n) && (n <=? 222))%nat
  then ascii_of_nat (n + 32)
  else c.

Fixpoint lower_string (s : string) : string :=
  match s with
  | EmptyString => EmptyString
  | String c rest => String (lower_char c) (lower_string rest)
  end.

(** [v.lower()]. *)
Definition lower (v : json) : res string :=
  match v with
  | JStr s => Val (lower_string s)
  | _ => Exc AttributeError
  end.

Definition one_float : spec_float := S754_finite false 4503599627370496 (-52).
Definition zero_float : spec_float := S754_zero false.

(** [int(f)] for a float: towards zero. *)
Definition int_of_float (f : spec_float) : res Z :=
  match f with
  | S754_zero _ => Val 0
  | S754_infinity _ => Exc OverflowError
  | S754_nan => Exc ValueError
  | S754_finite s m e =>
      let magnitude := Z.shiftl (Zpos m) e in
      Val (if s then - magnitude else magnitude)
  end.

Section Runtime.

Variable R : runtime.

(** [int(v)]. *)
Definition to_int (v : json) : res Z :=
  match v with
  | JInt n => Val n
  | JBool b => Val (if b then 1 else 0)
  | JFloat f => int_of_float f
  | JStr s =>
      match int_of_str R s with
      | Some n => Val n
      | None => Exc ValueError
      end
  | _ => Exc TypeError
  end.

(** [float(v)]. *)
Definition to_float (v : json) : res spec_float :=
  match v with
  | JInt n =>
      match float_of_int R n with
      | Some f => Val f
      | None => Exc OverflowError
      end
  | JBool b => Val (if b then one_float else zero_float)
  | JFloat f => Val f
  | JStr s =>
      match float_of_str R s with
      | Some f => Val f
      | None => Exc ValueError
      end
  | _ => Exc TypeError
  end.

(** [str(v)]. *)
Definition to_str (v : json) : string :=
  match v with
  | JStr s => s
  | _ => repr R v
  end.

Definition get_num (d key : json) : res spec_float :=
  v <-- dict_get d key ;;
  match v with
  | JNull => Val zero_float
  | _ =>
      match to_float v with
      | Val f => Val f
      | Exc TypeError => Val zero_float
      | Exc ValueError => Val zero_float
      | Exc e => Exc e
      end
  end.

Definition get_str (d key : json) : res string :=
  v <-- dict_get d key ;;
  match v with
  | JNull => Val ""
  | _ => Val (to_str v)
  end.

(** [isinstance(v, (int, float))]; a bool is an int. *)
Definition is_number (v : json) : bool :=
  match v with
  | JInt _ => true
  | JFloat _ => true
  | JBool _ => true
  | _ => false
  end.

(** One element of [x_vals]. *)
Definition x_value (key d : json) : res json :=
  v <-- dict_get d key ;;
  if is_number v then dict_get d key
  else s <-- get_str d key ;; Val (JStr s).

(** A list comprehension whose element may raise. *)
Fixpoint comprehension {A B : Type} (f : A -> res B) (l : list A)
  : res (list B) :=
  match l with
  | [] => Val []
  | a :: rest =>
      b <-- f a ;;
      bs <-- comprehension f rest ;;
      Val (b :: bs)
  end.

(** The fields read from the payload before any check. *)
Record header : Type := mkHeader {
  h_chart_type : string;
  h_x_axis : json;
  h_y_axis : json;
  h_color_by : json;
  h_data : json;
  h_width : Z;
  h_height : Z;
  h_fmt : string
}.

Definition read_header (payload : json) : res header :=
  v <-- dict_get payload (JStr "chartType") ;;
  chart_type <-- lower (or_else v (JStr "bar")) ;;
  x <-- dict_get payload (JStr "xAxis") ;;
  y <-- dict_get payload (JStr "yAxis") ;;
  color_by <-- dict_get payload (JStr "colorBy") ;;
  data <-- dict_get payload (JStr "data") ;;
  w <-- dict_get payload (JStr "width") ;;
  width <-- to_int (or_else w (JInt 800)) ;;
  h <-- dict_get payload (JStr "height") ;;
  height <-- to_int (or_else h (JInt 500)) ;;
  f <-- dict_get payload (JStr "format") ;;
  fmt <-- lower (or_else f (JStr "png")) ;;
  Val (mkHeader chart_type (or_else x (JStr "")) (or_else y (JStr ""))
         color_by data width height
         (if in_strings fmt ["png"; "svg"] then fmt else "png")).

(** [main] up to the drawing: it stops with what the run does, or goes on
    with the figure to draw. *)
Inductive prepared : Type :=
| Stop (r : run)
| Draw (f : figure).

Definition checks (h : header) : prepared :=
  if negb (truth (h_x_axis h)) || negb (truth (h_y_axis h)) then
    Stop (Output (error_doc "Missing xAxis or yAxis"))
  else
    match h_data h with
    | JArr (row :: rows) =>
        let data := row :: rows in
        match
          (xs <-- comprehension (x_value (h_x_axis h)) data ;;
           ys <-- comprehension (fun d => get_num d (h_y_axis h)) data ;;
           Val (xs, ys))
        with
        | Exc e =>
            Stop (Output
                    (error_doc ("Data extraction failed: " ++ error_text R e)))
        | Val (xs, ys) =>
            match ys with
            | [] => Stop (Output (error_doc "No valid y values"))
            | _ =>
                Draw (mkFigure (h_chart_type h) (h_x_axis h) (h_y_axis h)
                        (h_color_by h) data xs ys (h_width h) (h_height h)
                        (h_fmt h))
            end
        end
    | _ => Stop (Output (error_doc "Missing or invalid data"))
    end.

Definition prepare (stdin : string) : prepared :=
  match json_load R stdin with
  | JSONDecodeError message =>
      Stop (Output (error_doc ("Invalid JSON: " ++ message)))
  | LoadRaises e => Stop (Crash e)
  | Loaded payload =>
      match read_header payload with
      | Exc e => Stop (Crash e)
      | Val h => checks h
      end
  end.

Definition main (stdin : string) : run :=
  match prepare stdin with
  | Stop r => r
  | Draw f =>
      match savefig R f with
      | Exc e => Crash e
      | Val image =>
          if String.eqb (fmt f) "svg" then Output (image_doc image)
          else Output (image_doc ("data:image/png;base64," ++ image))
      end
  end.

(** ** The groups of a bar chart coloured by a column *)

(** A dict from the group key to its pair of lists, in insertion order. *)
Definition groups : Type := list (string * (list string * list spec_float)).

(** [if key not in groups: groups[key] = ([], [])], then the two
    [append]s. *)
Fixpoint add_row (g : groups) (key x : string) (y : spec_float) : groups :=
  match g with
  | [] => [(key, ([x], [y]))]
  | (k, (xs, ys)) :: rest =>
      if String.eqb k key then (k, ((xs ++ [x])%list, (ys ++ [y])%list)) :: rest
      else (k, (xs, ys)) :: add_row rest key x y
  end.

(** The loop over [enumerate(data)] from the index [i], [n] being
    [len(x_vals)]. *)
Fixpoint group_rows (f : figure) (rows : list json) (i n : nat) (g : groups)
  : res groups :=
  match rows with
  | [] => Val g
  | d :: rest =>
      key <-- get_str d (color_by f) ;;
      x <-- (if (i <? n)%nat then get_str d (x_axis f) else Val "") ;;
      y <-- get_num d (y_axis f) ;;
      group_rows f rest (S i) n (add_row g key x y)
  end.

Definition bar_groups (f : figure) : res groups :=
  group_rows f (data f) 0 (List.length (x_vals f)) [].

End Runtime.

End render_chart.

(** ** A sample payload and a sample runtime for the renderer *)

Module ChartExamples.

Definition quote : string := String (ascii_of_nat 34) "".
Definition quoted (s : string) : string := quote ++ s ++ quote.

Definition row (k : string) (v : Z) (g : string) : json :=
  JObj [("k", JStr k); ("v", JInt v); ("g", JStr g)].

Definition row_text (k v g : string) : string :=
  "{" ++ quoted "k" ++ ": " ++ quoted k ++ ", "
  ++ quoted "v" ++ ": " ++ v ++ ", "
  ++ quoted "g" ++ ": " ++ quoted g ++ "}".

(** A bar chart of [v] by [k], coloured by [g], asked in an unknown
    format. *)
Definition payload : json :=
  JObj [("chartType", JStr "Bar"); ("xAxis", JStr "k"); ("yAxis", JStr "v");
        ("colorBy", JStr "g");
        ("data", JArr [row "a" 1 "x"; row "b" 2 "y"; row "c" 3 "x"]);
        ("format", JStr "PDF")].

Definition payload_text : string :=
  "{" ++ quoted "chartType" ++ ": " ++ quoted "Bar" ++ ", "
  ++ quoted "xAxis" ++ ": " ++ quoted "k" ++ ", "
  ++ quoted "yAxis" ++ ": " ++ quoted "v" ++ ", "
  ++ quoted "colorBy" ++ ": " ++ quoted "g" ++ ", "
  ++ quoted "data" ++ ": ["
  ++ row_text "a" "1" "x" ++ ", " ++ row_text "b" "2" "y" ++ ", "
  ++ row_text "c" "3" "x" ++ "], "
  ++ quoted "format" ++ ": " ++ quoted "PDF" ++ "}".

(** An int as a float, exactly; rounding is left out, and so is every
    number syntax of strs. *)
Definition exact_float (n : Z) : option spec_float :=
  if 2 ^ 1024 <=? Z.abs n then None
  else
    Some (match n with
          | Z0 => S754_zero false
          | Zpos m => S754_finite false m 0
          | Zneg m => S754_finite true m 0
          end).

Definition load (stdin : string) : render_chart.load_outcome :=
  if String.eqb stdin payload_text then render_chart.Loaded payload
  else if String.eqb stdin "[]" then render_chart.Loaded (JArr [])
  else render_chart.JSONDecodeError "Expecting value".

Definition runtime : render_chart.runtime :=
  render_chart.mkRuntime load exact_float (fun _ => None) (fun _ => None)
    (fun _ => "") (fun _ => "") (fun _ => render_chart.Val "").

(** The figure the sample payload leads to. *)
Definition drawn : render_chart.figure :=
  render_chart.mkFigure "bar" (JStr "k") (JStr "v") (JStr "g")
    [row "a" 1 "x"; row "b" 2 "y"; row "c" 3 "x"]
    [JStr "a"; JStr "b"; JStr "c"]
    [S754_finite false 1 0; S754_finite false 2 0; S754_finite false 3 0]
    800 500 "png".

End ChartExamples.

(** The keys of the groups and the number of rows each holds. *)
Definition group_keys (g : render_chart.groups) : list string := map fst g.

Definition group_sizes (g : render_chart.groups) : list nat :=
  map (fun entry => List.length (fst (snd entry))) g.

Definition is_dict (v : json) : bool :=
  match v with
  | JObj _ => true
  | _ => false
  end.

(** A key that cannot be hashed: a list or a dict. *)
Definition unhashable (v : json) : bool :=
  match v with
  | JArr _ => true
  | JObj _ => true
  | _ => false
  end.

(** * Properties *)

Local Open Scope list_scope.

(** Case analysis on an expression, one goal per node class ([Yield] with
    and without a value). *)
Ltac expr_cases e :=
  destruct e as [?c|?id|?v ?a|?v ?s|?fn ?args ?kws|?l ?ops ?cs|?elts|?elts
                |?elts|?v|?t ?v|?v|[?v|]|?v|?k ?v|].

(** ** Traversal lemmas *)

Section Traversal.

Variable I : interpreter.

Lemma visit_OtherStmt (nested : list ast.stmt) (self : PipelineExtractor) :
  visit I (ast.OtherStmt nested) self = generic_visit I nested self.
Proof.
  revert self. induction nested as [|child rest IH]; intro self.
  - reflexivity.
  - simpl. destruct (visit I child self) as [self'|e]; simpl.
    + apply IH.
    + reflexivity.
Qed.

Lemma generic_visit_app (before after : list ast.stmt)
    (self : PipelineExtractor) :
  generic_visit I (before ++ after) self =
  (self' <- generic_visit I before self ;; generic_visit I after self').
Proof.
  revert self. induction before as [|child rest IH]; intro self.
  - reflexivity.
  - simpl. destruct (visit I child self) as [self'|e]; simpl.
    + apply IH.
    + reflexivity.
Qed.

End Traversal.

(** An induction principle that reaches the nested statements. *)
Section StmtInduction.

Variable P : ast.stmt -> Prop.
Hypothesis P_Assign :
  forall targets value lineno end_lineno,
    P (ast.Assign targets value lineno end_lineno).
Hypothesis P_Expr : forall value, P (ast.Expr value).
Hypothesis P_Other :
  forall nested, Forall P nested -> P (ast.OtherStmt nested).

Fixpoint stmt_nested_ind (node : ast.stmt) : P node :=
  match node with
  | ast.Assign targets value lineno end_lineno =>
      P_Assign targets value lineno end_lineno
  | ast.Expr value => P_Expr value
  | ast.OtherStmt nested =>
      P_Other nested
        ((fix all (l : list ast.stmt) : Forall P l :=
            match l with
            | [] => Forall_nil P
            | child :: rest =>
                Forall_cons child (stmt_nested_ind child) (all rest)
            end) nested)
  end.

End StmtInduction.

(** ** The failure tiers of the output *)

(** C2. When the parser rejects the source text with a syntax error, [main]
    prints exactly the document with no step and the fallback flag set; no
    exception leaves it. *)
Theorem parse_failure_response (I : interpreter) (src : string) :
  ast_parse I src = ParseRaises SyntaxError ->
  main I src = Printed fallback_response.
Proof.
  intro Hparse. unfold main. rewrite Hparse. reflexivity.
Qed.

(** C3. When the traversal raises, the document printed is exactly the one
    of the failure tier, whatever steps were accumulated before: this holds
    for every tree, and in particular when the statements [before] were
    visited without fault, leaving the extractor [self], and the next
    statement raises. *)
Theorem traversal_fault_response (I : interpreter) (src : string) :
  (forall tree e,
      generic_visit I tree (init src) = Raised e ->
      translate I src tree = Printed fallback_response)
  /\ (forall before node after self e,
      generic_visit I before (init src) = Ok self ->
      visit I node self = Raised e ->
      translate I src ((before ++ node :: after)%list)
      = Printed fallback_response).
Proof.
  assert (Hfault : forall tree e,
             generic_visit I tree (init src) = Raised e ->
             translate I src tree = Printed fallback_response).
  { intros tree e Hraise. unfold translate. rewrite Hraise. reflexivity. }
  split; [exact Hfault|].
  intros before node after self e Hbefore Hnode.
  apply (Hfault _ e).
  rewrite generic_visit_app, Hbefore. simpl. rewrite Hnode. reflexivity.
Qed.

(** ** The chart idiom *)

Lemma str_or_axis (a : ast.expr) :
  str_or (get_string_from_node a) "" = axis (Some a).
Proof.
  unfold str_or, axis.
  destruct (get_string_from_node a) as [[|c s]|]; reflexivity.
Qed.


(** C10. A call whose function is an attribute of a bare name, such as
    [plt.bar(df["x"], df["y"])], never adds a chart step: the visitor
    leaves the extractor as it was, and a script made of such a statement
    gets the response of the zero-step tier.  The chart idiom matches only
    calls whose function is an attribute of an attribute named [pyplot];
    the test on the name [plt] is made on an attribute node, where it is
    false. *)
Theorem bare_name_chart_never_matches :
  (forall self x m args kws,
      visit_Expr self (ast.Call (ast.Attribute (ast.Name x) m) args kws)
      = self)
  /\ (forall I src x m args kws,
         translate I src
           [ast.Expr (ast.Call (ast.Attribute (ast.Name x) m) args kws)]
         = Printed fallback_response)
  /\ (forall value, chart_idiom value = None \/ rooted_at_pyplot value = true)
  /\ (forall v a, is_Name (ast.Attribute v a) "plt" = false).
Proof.
  split; [reflexivity|]. split; [reflexivity|]. split; [|reflexivity].
  intro value.
  destruct value as [| | | |func args kws| | | | | | | | | | |];
    try (left; reflexivity).
  destruct func as [| |fvalue m| | | | | | | | | | | | |];
    try (left; reflexivity).
  destruct fvalue as [| |v a| | | | | | | | | | | | |];
    try (left; reflexivity).
  unfold chart_idiom, rooted_at_pyplot.
  change (is_Name (ast.Attribute v a) "plt") with false.
  rewrite orb_false_r.
  change (is_str (attr_attr (ast.Attribute v a)) "pyplot")
    with (String.eqb a "pyplot").
  destruct (String.eqb a "pyplot"); [right; reflexivity | left; reflexivity].
Qed.

(** ** What the traversal does to the extractor *)

Section Advances.

Variable I : interpreter.

Lemma advances_refl (self : PipelineExtractor) : advances I self self [].
Proof.
  unfold advances. repeat split; try reflexivity.
  - exists []. now rewrite app_nil_r.
  - simpl. now rewrite orb_false_r.
Qed.

Lemma advances_trans (a b c : PipelineExtractor) (r1 r2 : list ast.stmt) :
  advances I a b r1 -> advances I b c r2 -> advances I a c (r1 ++ r2).
Proof.
  intros (Hs1 & Hl1 & Hd1 & [add1 Ha1] & Hf1)
         (Hs2 & Hl2 & Hd2 & [add2 Ha2] & Hf2).
  unfold advances. repeat split; try congruence.
  - exists (add1 ++ add2). rewrite Ha2, Ha1. now rewrite app_assoc.
  - rewrite Hf2, Hf1, Hl1, Hd1, existsb_app. now rewrite orb_assoc.
Qed.

Lemma advances_add_step (self : PipelineExtractor) (s : step)
    (node : ast.stmt) :
  asks_fallback I (lines self) (df_name self) node = false ->
  advances I self (_add_step self s) [node].
Proof.
  intro Hno. unfold advances. repeat split; try reflexivity.
  - exists [s]. reflexivity.
  - simpl. rewrite Hno. now rewrite !orb_false_r.
Qed.

Lemma advances_same (self : PipelineExtractor) (node : ast.stmt) :
  asks_fallback I (lines self) (df_name self) node = false ->
  advances I self self [node].
Proof.
  intro Hno. unfold advances. repeat split; try reflexivity.
  - exists []. now rewrite app_nil_r.
  - simpl. rewrite Hno. now rewrite !orb_false_r.
Qed.

Lemma advances_set_fallback (self : PipelineExtractor) (node : ast.stmt) :
  asks_fallback I (lines self) (df_name self) node = true ->
  advances I self (set_fallback self) [node].
Proof.
  intro Hyes. unfold advances. repeat split; try reflexivity.
  - exists []. simpl. now rewrite app_nil_r.
  - simpl. rewrite Hyes. now rewrite orb_true_r.
Qed.

Lemma visit_Assign_advances (self self' : PipelineExtractor)
    (targets : list ast.expr) (value : ast.expr) (lineno : Z)
    (end_lineno : option Z) :
  visit_Assign I self targets value lineno end_lineno = Ok self' ->
  advances I self self' [ast.Assign targets value lineno end_lineno].
Proof.
  unfold visit_Assign.
  destruct targets as [|target [|second others]].
  - intros [= <-]. now apply advances_same.
  - destruct (assign_idioms I value) as [[s|]|e] eqn:Hidioms; simpl.
    + intros [= <-]. apply advances_add_step.
      unfold asks_fallback, unrecognized_assignment, empty_span_column.
      rewrite Hidioms. now destruct target.
    + intros [= <-]. unfold assign_tail.
      destruct target as [| id | | base slice | | | | | | | | | | | |];
        try (apply advances_same;
             unfold asks_fallback, unrecognized_assignment, empty_span_column;
             rewrite Hidioms; reflexivity).
      * (* a name *)
        destruct (is_Name (ast.Name id) (df_name self)) eqn:Hname.
        -- apply advances_set_fallback.
           unfold asks_fallback, unrecognized_assignment.
           rewrite Hidioms, Hname. reflexivity.
        -- apply advances_same.
           unfold asks_fallback, unrecognized_assignment, empty_span_column.
           rewrite Hidioms, Hname. reflexivity.
      * (* a subscript *)
        destruct (get_string_from_node (ast.Subscript base slice))
          as [col_name|] eqn:Hcol.
        -- destruct (nonempty (unparse_simple lineno end_lineno (lines self)))
             eqn:Hspan.
           ++ apply advances_add_step.
              unfold asks_fallback, unrecognized_assignment, empty_span_column.
              rewrite Hidioms, Hcol, Hspan. reflexivity.
           ++ change (is_Name (ast.Subscript base slice)
                        (df_name (set_fallback self))) with false.
              cbv iota. apply advances_set_fallback.
              unfold asks_fallback, unrecognized_assignment, empty_span_column.
              rewrite Hidioms, Hcol, Hspan. reflexivity.
        -- change (is_Name (ast.Subscript base slice) (df_name self))
             with false.
           cbv iota. apply advances_same.
           unfold asks_fallback, unrecognized_assignment, empty_span_column.
           rewrite Hidioms, Hcol. reflexivity.
    + discriminate.
  - intros [= <-]. apply advances_same.
    unfold asks_fallback, unrecognized_assignment, empty_span_column.
    now destruct target.
Qed.

Lemma visit_Expr_advances (self : PipelineExtractor) (value : ast.expr) :
  advances I self (visit_Expr self value) [ast.Expr value].
Proof.
  unfold visit_Expr. destruct (chart_idiom value).
  - now apply advances_add_step.
  - now apply advances_same.
Qed.

Lemma visit_advances (node : ast.stmt) :
  forall self self',
    visit I node self = Ok self' ->
    advances I self self' (descendants node).
Proof.
  induction node as [targets value lineno end_lineno | value | nested IH]
    using stmt_nested_ind; intros self self' Hvisit.
  - now apply visit_Assign_advances.
  - simpl in Hvisit. injection Hvisit as <-. apply visit_Expr_advances.
  - rewrite visit_OtherStmt in Hvisit.
    change (descendants (ast.OtherStmt nested))
      with ([ast.OtherStmt nested] ++ flat_map descendants nested).
    apply advances_trans with (b := self); [now apply advances_same|].
    revert self Hvisit.
    induction IH as [|child rest Hchild _ IHrest]; intros self Hvisit.
    + simpl in Hvisit. injection Hvisit as <-. apply advances_refl.
    + simpl in Hvisit.
      destruct (visit I child self) as [mid|e] eqn:Hmid; [|discriminate].
      simpl in Hvisit. simpl.
      apply advances_trans with (b := mid); auto.
Qed.

Lemma generic_visit_advances (tree : list ast.stmt) :
  forall self self',
    generic_visit I tree self = Ok self' ->
    advances I self self' (statements tree).
Proof.
  induction tree as [|child rest IH]; intros self self' Hvisit.
  - simpl in Hvisit. injection Hvisit as <-. apply advances_refl.
  - simpl in Hvisit.
    destruct (visit I child self) as [mid|e] eqn:Hmid; [|discriminate].
    simpl in Hvisit. unfold statements. simpl.
    apply advances_trans with (b := mid).
    + now apply visit_advances.
    + now apply IH.
Qed.

End Advances.

(** ** The fallback flag *)

Lemma advances_flag (I : interpreter) (src : string) (tree : list ast.stmt)
    (extractor : PipelineExtractor) :
  generic_visit I tree (init src) = Ok extractor ->
  fallback_to_llm extractor =
  existsb (asks_fallback I (splitlines src) "df") (statements tree).
Proof.
  intro Hvisit. apply generic_visit_advances in Hvisit.
  destruct Hvisit as (_ & _ & _ & _ & Hflag). exact Hflag.
Qed.

(** C1, as amended.  Whenever [main] prints a document, its field
    [fallbackToLlm] is a boolean, and it is true exactly when the parser
    raised a syntax error, or the traversal raised, or some statement of the
    tree, nested ones included, is an assignment with the tracked name as
    its single target that matches no idiom, or is a computed-column
    assignment whose reconstructed span is empty, or the traversal ended
    with no step. *)
Theorem fallback_flag_characterized (I : interpreter) (src : string)
    (doc : json) :
  main I src = Printed doc ->
  exists b, fallbackToLlm doc = Some b /\ (b = true <-> fallback_cause I src).
Proof.
  unfold fallback_cause, main.
  destruct (ast_parse I src) as [tree|e] eqn:Hparse.
  - unfold translate.
    destruct (generic_visit I tree (init src)) as [extractor|e] eqn:Hvisit.
    + unfold print_result.
      destruct (dumps_nodes I (steps extractor)) as [nodes|e]; [|discriminate].
      intros [= <-]. eexists. split; [reflexivity|].
      rewrite (advances_flag I src tree extractor Hvisit).
      rewrite orb_true_iff, existsb_exists. split.
      * intros [(node & Hin & Hasks) | Hzero]; right; exists tree;
          (split; [reflexivity|]).
        -- right; left. exists node. split; [exact Hin|].
           now apply orb_true_iff in Hasks.
        -- right; right. exists extractor. split; [exact Hvisit|].
           destruct (steps extractor); [reflexivity|discriminate].
      * intros [Hsyntax | (tree' & Htree & Hcause)]; [discriminate|].
        injection Htree as <-.
        destruct Hcause
          as [(e & He) | [(node & Hin & Hasks) | (ex & Hex & Hnil)]].
        -- congruence.
        -- left. exists node. split; [exact Hin|].
           now apply orb_true_iff.
        -- right. rewrite Hvisit in Hex. injection Hex as <-.
           now rewrite Hnil.
    + simpl. intros [= <-]. exists true. split; [reflexivity|].
      split; [|reflexivity]. intros _. right. exists tree.
      split; [reflexivity|]. left. now exists e.
  - destruct e; simpl; try discriminate.
    intros [= <-]. exists true. split; [reflexivity|].
    split; [|reflexivity]. intros _. now left.
Qed.


(** ** The select idiom *)

Lemma resolved_strings_filter (elts : list ast.expr) :
  map Some (resolved_strings elts)
  = map get_string_from_node (filter resolves elts).
Proof.
  induction elts as [|e rest IH]; [reflexivity|].
  simpl. unfold resolves.
  destruct (get_string_from_node e) as [s|] eqn:He; simpl.
  - now rewrite He, IH.
  - exact IH.
Qed.

Lemma resolved_strings_nil (elts : list ast.expr) :
  resolved_strings elts = [] <-> existsb resolves elts = false.
Proof.
  induction elts as [|e rest IH]; [now split|].
  simpl. unfold resolves at 1.
  destruct (get_string_from_node e); simpl; [now split|exact IH].
Qed.

(** The steps [assign_tail] leaves are the old ones and, at most, one
    computed column. *)
Lemma assign_tail_steps (self : PipelineExtractor) (target : ast.expr)
    (lineno : Z) (end_lineno : option Z) (s : step) :
  In s (steps (assign_tail self target lineno end_lineno)) ->
  In s (steps self) \/ kind s = "computedColumn".
Proof.
  unfold assign_tail.
  destruct target as [| id | | base slice | | | | | | | | | | | |];
    try (now left).
  - destruct (is_Name (ast.Name id) (df_name self)); now left.
  - destruct (get_string_from_node (ast.Subscript base slice)).
    + destruct (nonempty _); [|now left].
      simpl. intro Hin. apply in_app_or in Hin.
      destruct Hin as [Hin|[<-|[]]]; [now left|now right].
    + now left.
Qed.

(** C6, as amended.  For an assignment [target = base[[e1, ..., en]]] the
    column-list extractor keeps, in order, the strings of the elements that
    resolve and skips the others.  When at least one element resolves, the
    visitor adds the select step with exactly those columns; when none
    does, the extractor returns no value and the visitor adds no select
    step. *)
Theorem select_keeps_resolved_columns (I : interpreter)
    (self : PipelineExtractor) (target base : ast.expr)
    (elts : list ast.expr) (lineno : Z) (end_lineno : option Z) :
  map Some (resolved_strings elts)
  = map get_string_from_node (filter resolves elts)
  /\ (if existsb resolves elts then
        get_column_list (ast.Subscript base (ast.List elts))
        = Some (resolved_strings elts)
        /\ visit_Assign I self [target] (ast.Subscript base (ast.List elts))
             lineno end_lineno
           = Ok (_add_step self
                   (mkStep "select"
                      [("columns", CfgStrings (resolved_strings elts))]))
      else
        get_column_list (ast.Subscript base (ast.List elts)) = None
        /\ exists self',
            visit_Assign I self [target] (ast.Subscript base (ast.List elts))
              lineno end_lineno = Ok self'
            /\ forall s, In s (steps self') ->
                         In s (steps self) \/ kind s = "computedColumn").
Proof.
  split; [apply resolved_strings_filter|].
  unfold visit_Assign, assign_idioms, subscript_idioms, get_column_list.
  change (filter_idiom I (ast.List elts)) with (@Ok (option step) None).
  change (attr_elts (unwrap_Index (ast.List elts))) with (Some elts).
  cbn [bind].
  destruct (existsb resolves elts) eqn:Hany.
  - destruct (resolved_strings elts) as [|col cols] eqn:Hcols.
    + apply resolved_strings_nil in Hcols. congruence.
    + split; reflexivity.
  - apply resolved_strings_nil in Hany. rewrite Hany.
    split; [reflexivity|].
    eexists. split; [reflexivity|].
    intros s. apply assign_tail_steps.
Qed.

(** ** The filter idiom *)



(** ** The chained aggregation *)

(** Every expression is a node that ends the unwinding, under the wrappers
    the unwinding follows. *)
Lemma receiver_unwinds :
  forall e, exists ws core, e = wrap_all ws core /\ ends_walk core = true.
Proof.
  fix IH 1. intro e.
  destruct e as [c|id|v a|v s|fn args kws|l ops cs|elts|elts|elts|v|t v|v
                |[v|]|v|k v|];
    try (exists (@nil wrapper); eexists; split; reflexivity).
  - destruct (IH v) as (ws & core & -> & Hcore).
    exists (WAttribute a :: ws), core. now split.
  - destruct (IH v) as (ws & core & -> & Hcore).
    exists (WSubscript s :: ws), core. now split.
  - destruct (IH v) as (ws & core & -> & Hcore).
    exists (WStarred :: ws), core. now split.
  - destruct (IH v) as (ws & core & -> & Hcore).
    exists (WNamedExpr t :: ws), core. now split.
  - destruct (IH v) as (ws & core & -> & Hcore).
    exists (WAwait :: ws), core. now split.
  - destruct (IH v) as (ws & core & -> & Hcore).
    exists (WYield :: ws), core. now split.
  - destruct (IH v) as (ws & core & -> & Hcore).
    exists (WYieldFrom :: ws), core. now split.
  - destruct (IH v) as (ws & core & -> & Hcore).
    exists (WDictComp k :: ws), core. now split.
Qed.

(** Unwinding the wrappers [ws] around a node that ends the walk: the
    group column is the one that node gives, and the aggregate column
    carried there is that of the subscript nearest to it. *)
Lemma walk_back_unwinds (ws : list wrapper) (core : ast.expr) :
  ends_walk core = true ->
  forall agg_col,
    walk_back (wrap_all ws core) agg_col
    = (origin_column core,
       match column_selection ws with
       | Some slice => axis (Some slice)
       | None => agg_col
       end).
Proof.
  intro Hcore. induction ws as [|w inner IH]; intro agg_col.
  - simpl.
    destruct core as [c|id|v a|v s|fn args kws|l ops cs|elts|elts|elts|v|t v
                     |v|[v|]|v|k v|];
      try discriminate; try reflexivity.
    simpl. destruct (is_str (attr_attr fn) "groupby"); [|reflexivity].
    destruct args as [|arg0 rest]; simpl; [reflexivity|].
    now rewrite str_or_axis.
  - destruct w; simpl; rewrite IH;
      destruct (column_selection inner); try reflexivity.
    now rewrite str_or_axis.
Qed.

(** C8. An assignment with one target whose right-hand side calls [sum],
    [mean], [count], [min] or [max] always adds one groupBy step, whose
    [aggregation] is the method name with [mean] renamed to [avg].  The
    receiver of the method is unwound through the nodes that have a
    [value] link (subscripts, attributes) and through no call: every
    receiver is such wrappers [ws] around a node [core] that ends the
    unwinding, and then [groupByColumn] is the string of the first
    positional argument of [core] when [core] is a [groupby] call (empty
    when there is none or it resolves to no string) and the empty string
    when [core] is anything else, another call included;
    [aggregateColumn] is the column of the selection nearest to [core]
    when that resolves to a non-empty string, and [groupByColumn]
    otherwise. *)
Theorem chained_aggregation_step (I : interpreter)
    (self : PipelineExtractor) (target : ast.expr) (fvalue : ast.expr)
    (m : string) (aargs : list ast.expr) (akws : list ast.keyword)
    (lineno : Z) (end_lineno : option Z) :
  in_strings m ["sum"; "mean"; "count"; "min"; "max"] = true ->
  (exists ws core, fvalue = wrap_all ws core /\ ends_walk core = true)
  /\ forall ws core,
      fvalue = wrap_all ws core ->
      ends_walk core = true ->
      visit_Assign I self [target]
        (ast.Call (ast.Attribute fvalue m) aargs akws) lineno end_lineno
      = Ok (_add_step self
              (mkStep "groupBy"
                 [("groupByColumn", CfgStr (origin_column core));
                  ("aggregateColumn",
                   CfgStr
                     (match column_selection ws with
                      | Some slice =>
                          if nonempty (axis (Some slice))
                          then axis (Some slice)
                          else origin_column core
                      | None => origin_column core
                      end));
                  ("aggregation",
                   CfgStr (if String.eqb m "mean" then "avg" else m))])).
Proof.
  intro Hm. split; [apply receiver_unwinds|].
  intros ws core -> Hcore.
  assert (Hread : String.eqb m "read_csv" = false).
  { destruct (String.eqb_spec m "read_csv") as [->|]; [discriminate|easy]. }
  assert (Hgroup : String.eqb m "groupby" = false).
  { destruct (String.eqb_spec m "groupby") as [->|]; [discriminate|easy]. }
  unfold visit_Assign, assign_idioms, subscript_idioms, call_idioms.
  cbn [bind orelse].
  unfold read_csv_idiom, groupby_idiom, aggregation_idiom.
  rewrite Hread, Hgroup, Hm. cbn [orelse].
  rewrite (walk_back_unwinds ws core Hcore).
  destruct (column_selection ws) as [slice|]; reflexivity.
Qed.

(** ** Idioms do not look at identifiers *)

Section Renaming.

Variable I : interpreter.
Variable f : string -> string.
Hypothesis f_keeps_aliases : keeps_aliases f.

Lemma get_string_rename :
  forall e, get_string_from_node (rename f e) = get_string_from_node e.
Proof.
  fix IH 1. intro e. expr_cases e; simpl; try reflexivity. apply IH.
Qed.

Lemma get_constant_value_rename (e : ast.expr) :
  get_constant_value (rename f e) = get_constant_value e.
Proof. expr_cases e; reflexivity. Qed.

Lemma resolved_strings_rename (elts : list ast.expr) :
  resolved_strings (map (rename f) elts) = resolved_strings elts.
Proof.
  induction elts as [|e rest IH]; [reflexivity|].
  simpl. now rewrite get_string_rename, IH.
Qed.

Lemma truthy_strings_rename (elts : list ast.expr) :
  truthy_strings (map (rename f) elts) = truthy_strings elts.
Proof.
  induction elts as [|e rest IH]; [reflexivity|].
  simpl. now rewrite get_string_rename, IH.
Qed.

Lemma unwrap_Index_rename (slice : ast.expr) :
  unwrap_Index (rename f slice) = rename_obj f (unwrap_Index slice).
Proof. expr_cases slice; reflexivity. Qed.

Lemma attr_elts_rename (o : pyobj) :
  attr_elts (rename_obj f o) = option_map (map (rename f)) (attr_elts o).
Proof. destruct o as [e|c]; [expr_cases e|]; reflexivity. Qed.

Lemma get_column_list_rename (value : ast.expr) :
  get_column_list (rename f value) = get_column_list value.
Proof.
  destruct value as [| | |base slice| | | | | | | | |[|]| | |];
    try reflexivity.
  simpl. rewrite unwrap_Index_rename, attr_elts_rename.
  destruct (attr_elts (unwrap_Index slice)); simpl; [|reflexivity].
  now rewrite resolved_strings_rename.
Qed.

Lemma filter_idiom_rename (slice : ast.expr) :
  filter_idiom I (rename f slice) = filter_idiom I slice.
Proof.
  unfold filter_idiom. rewrite unwrap_Index_rename.
  destruct (unwrap_Index slice) as [e|c]; [|reflexivity].
  destruct e as [| | | | |left_node ops comparators| | | | | | |[|]| | |];
    try reflexivity.
  simpl. destruct comparators as [|right_node [|second others]];
    try reflexivity.
  simpl. destruct ops as [|op rest]; [reflexivity|].
  now rewrite get_string_rename, get_constant_value_rename.
Qed.

Lemma subscript_idioms_rename (value : ast.expr) :
  subscript_idioms I (rename f value) = subscript_idioms I value.
Proof.
  destruct value as [| | |base slice| | | | | | | | |[|]| | |];
    try reflexivity.
  change (rename f (ast.Subscript base slice))
    with (ast.Subscript (rename f base) (rename f slice)).
  unfold subscript_idioms. rewrite filter_idiom_rename.
  change (ast.Subscript (rename f base) (rename f slice))
    with (rename f (ast.Subscript base slice)).
  now rewrite get_column_list_rename.
Qed.

Lemma first_string_rename (args : list ast.expr) :
  match map (rename f) args with
  | arg0 :: _ => str_or (get_string_from_node arg0) ""
  | [] => ""
  end
  = match args with
    | arg0 :: _ => str_or (get_string_from_node arg0) ""
    | [] => ""
    end.
Proof. destruct args; simpl; [reflexivity|now rewrite get_string_rename]. Qed.

Lemma read_csv_idiom_rename (func : ast.expr) (args : list ast.expr) :
  read_csv_idiom (rename f func) (map (rename f) args)
  = read_csv_idiom func args.
Proof.
  destruct func as [| |fvalue attr| | | | | | | | | |[|]| | |];
    try reflexivity.
  cbn [rename read_csv_idiom].
  destruct (String.eqb attr "read_csv"); [|reflexivity].
  rewrite first_string_rename.
  expr_cases fvalue; try reflexivity.
  cbn [rename]. now rewrite f_keeps_aliases.
Qed.

Lemma groupby_keywords_rename (keywords : list ast.keyword) :
  forall group_col,
    groupby_keywords (map (rename_keyword f) keywords) group_col
    = groupby_keywords keywords group_col.
Proof.
  unfold groupby_keywords.
  induction keywords as [|kw rest IH]; intro group_col; [reflexivity|].
  simpl. rewrite IH. unfold ast.arg, ast.kw_value, rename_keyword. simpl.
  now rewrite get_string_rename.
Qed.

Lemma first_group_rename (args : list ast.expr) :
  match map (rename f) args with
  | ast.Constant c :: _ => c
  | arg0 :: _ => of_optional_str (get_string_from_node arg0)
  | [] => CStr ""
  end
  = match args with
    | ast.Constant c :: _ => c
    | arg0 :: _ => of_optional_str (get_string_from_node arg0)
    | [] => CStr ""
    end.
Proof.
  destruct args as [|arg0 rest]; [reflexivity|].
  pose proof (get_string_rename arg0) as Harg.
  expr_cases arg0; simpl in *; now rewrite ?Harg.
Qed.

Lemma groupby_idiom_rename (func : ast.expr) (args : list ast.expr)
    (keywords : list ast.keyword) :
  groupby_idiom (rename f func) (map (rename f) args)
    (map (rename_keyword f) keywords)
  = groupby_idiom func args keywords.
Proof.
  destruct func as [| |fvalue attr| | | | | | | | | |[|]| | |];
    try reflexivity.
  simpl. destruct (String.eqb attr "groupby"); [|reflexivity].
  rewrite !groupby_keywords_rename, first_group_rename.
  expr_cases fvalue; simpl; try reflexivity.
  now rewrite get_string_rename.
Qed.

Lemma attr_attr_rename (e : ast.expr) :
  attr_attr (rename f e) = attr_attr e.
Proof. expr_cases e; reflexivity. Qed.

Lemma walk_back_rename :
  forall prev agg_col,
    walk_back (rename f prev) agg_col = walk_back prev agg_col.
Proof.
  fix IH 1. intros prev agg_col.
  destruct prev as [| | |base slice|fn args kws| | | | | | | |[|]| | |];
    simpl; try reflexivity; try apply IH.
  - rewrite get_string_rename. apply IH.
  - rewrite attr_attr_rename.
    destruct (is_str (attr_attr fn) "groupby"); [|reflexivity].
    destruct args; simpl; [reflexivity|now rewrite get_string_rename].
Qed.

Lemma aggregation_idiom_rename (func : ast.expr) :
  aggregation_idiom (rename f func) = aggregation_idiom func.
Proof.
  destruct func as [| |fvalue attr| | | | | | | | | |[|]| | |];
    try reflexivity.
  simpl. now rewrite walk_back_rename.
Qed.

Lemma sort_keywords_rename (keywords : list ast.keyword) :
  forall init,
    sort_keywords (map (rename_keyword f) keywords) init
    = sort_keywords keywords init.
Proof.
  unfold sort_keywords.
  induction keywords as [|kw rest IH]; intro init; [reflexivity|].
  simpl. rewrite IH. destruct init as [col ascending].
  unfold ast.arg, ast.kw_value, rename_keyword. simpl.
  now rewrite get_string_rename, get_constant_value_rename.
Qed.

Lemma sort_values_idiom_rename (func : ast.expr) (args : list ast.expr)
    (keywords : list ast.keyword) :
  sort_values_idiom (rename f func) (map (rename f) args)
    (map (rename_keyword f) keywords)
  = sort_values_idiom func args keywords.
Proof.
  destruct func as [| |fvalue attr| | | | | | | | | |[|]| | |];
    try reflexivity.
  simpl. now rewrite first_string_rename, sort_keywords_rename.
Qed.

Lemma list_or_tuple_rename (e : ast.expr) :
  list_or_tuple (rename f e) = option_map (map (rename f)) (list_or_tuple e).
Proof. expr_cases e; reflexivity. Qed.

Lemma melt_keyword_rename (m : melt_vars) (kw : ast.keyword) :
  melt_keyword m (rename_keyword f kw) = melt_keyword m kw.
Proof.
  unfold melt_keyword, ast.arg, ast.kw_value, rename_keyword. simpl.
  rewrite list_or_tuple_rename, get_string_rename.
  destruct (list_or_tuple (snd kw)); simpl;
    now rewrite ?truthy_strings_rename.
Qed.

Lemma melt_idiom_rename (func : ast.expr) (keywords : list ast.keyword) :
  melt_idiom (rename f func) (map (rename_keyword f) keywords)
  = melt_idiom func keywords.
Proof.
  destruct func as [| |fvalue attr| | | | | | | | | |[|]| | |];
    try reflexivity.
  simpl. destruct (String.eqb attr "melt"); [|reflexivity].
  assert (Hfold : forall m,
             fold_left melt_keyword (map (rename_keyword f) keywords) m
             = fold_left melt_keyword keywords m).
  { induction keywords as [|kw rest IH]; intro m; [reflexivity|].
    simpl. now rewrite melt_keyword_rename, IH. }
  now rewrite Hfold.
Qed.

Lemma call_idioms_rename (value : ast.expr) :
  call_idioms (rename f value) = call_idioms value.
Proof.
  destruct value as [| | | |func args keywords| | | | | | | |[|]| | |];
    try reflexivity.
  change (rename f (ast.Call func args keywords))
    with (ast.Call (rename f func) (map (rename f) args)
            (map (rename_keyword f) keywords)).
  unfold call_idioms.
  now rewrite read_csv_idiom_rename, groupby_idiom_rename,
    aggregation_idiom_rename, sort_values_idiom_rename, melt_idiom_rename.
Qed.

Lemma assign_idioms_rename (value : ast.expr) :
  assign_idioms I (rename f value) = assign_idioms I value.
Proof.
  unfold assign_idioms.
  now rewrite subscript_idioms_rename, call_idioms_rename.
Qed.

End Renaming.

(** C5, as amended.  The idioms of the right-hand side do not look at
    identifiers: renaming the identifiers it reads, the aliases of
    [read_csv] kept apart, changes nothing to the step matched, and a
    matched step is added whatever the target is.  The tracked name only
    decides what an assignment to a name does when nothing matched: it sets
    the fallback flag when the name is the tracked one and does nothing
    otherwise. *)
Theorem idioms_ignore_identifiers (I : interpreter) (f : string -> string) :
  keeps_aliases f ->
  (forall value, assign_idioms I (rename f value) = assign_idioms I value)
  /\ (forall self target target' value s lineno end_lineno lineno' end_lineno',
         assign_idioms I value = Ok (Some s) ->
         visit_Assign I self [target] value lineno end_lineno
         = Ok (_add_step self s)
         /\ visit_Assign I self [target'] (rename f value) lineno' end_lineno'
            = Ok (_add_step self s))
  /\ (forall self x value lineno end_lineno,
         assign_idioms I value = Ok None ->
         visit_Assign I self [ast.Name x] value lineno end_lineno
         = Ok (if String.eqb x (df_name self) then set_fallback self
               else self)).
Proof.
  intro Hf. split; [|split].
  - intro value. now apply assign_idioms_rename.
  - intros self target target' value s l e l' e' Hmatch.
    unfold visit_Assign.
    rewrite (assign_idioms_rename I f Hf value), Hmatch. now split.
  - intros self x value l e Hnone. unfold visit_Assign.
    rewrite Hnone. reflexivity.
Qed.

(** * The theorems at work on the sample scripts *)

(** C1, the claim as stated fails: in the script
    [df = pd.read_csv('a.csv')] then [df = backup = df.dropna()] the second
    statement assigns to the tracked variable and the visitor matches
    nothing on it, and yet the document printed has one step and
    [fallbackToLlm] false. *)
Lemma two_targets_not_flagged :
  main Sample.cpython Sample.load_two_targets_src
  = Printed
      (response [json_step "dataSource" [("fileName", JStr "a.csv")]] false)
  /\ exists node,
      In node (statements Sample.load_two_targets)
      /\ assigns_to "df" node = true
      /\ forall self, visit Sample.cpython node self = Ok self.
Proof.
  split; [reflexivity|].
  exists (ast.Assign [Sample.df; ast.Name "backup"]
            (ast.Call (ast.Attribute Sample.df "dropna") [] []) 2 (Some 2)).
  split; [right; left; reflexivity|].
  split; reflexivity.
Qed.

Lemma fallback_flag_characterized_witness :
  main Sample.cpython Sample.load_dropna_src
  = Printed
      (response [json_step "dataSource" [("fileName", JStr "a.csv")]] true)
  /\ exists b,
      fallbackToLlm
        (response [json_step "dataSource" [("fileName", JStr "a.csv")]] true)
      = Some b
      /\ (b = true <-> fallback_cause Sample.cpython Sample.load_dropna_src).
Proof.
  split; [reflexivity|].
  apply (fallback_flag_characterized Sample.cpython Sample.load_dropna_src).
  reflexivity.
Defined.

Lemma parse_failure_response_witness :
  ast_parse Sample.cpython Sample.unclosed_src = ParseRaises SyntaxError
  /\ main Sample.cpython Sample.unclosed_src = Printed fallback_response.
Proof.
  split; [reflexivity|].
  apply (parse_failure_response Sample.cpython Sample.unclosed_src).
  reflexivity.
Defined.

(** The load is visited and gives a step; the filter then raises
    [ValueError] on the text of its integer; the document has no step. *)
Lemma traversal_fault_response_witness :
  generic_visit Sample.cpython [Sample.load 1] (init Sample.huge_filter_src)
  = Ok (_add_step (init Sample.huge_filter_src) Sample.load_step)
  /\ visit Sample.cpython Sample.huge_test
       (_add_step (init Sample.huge_filter_src) Sample.load_step)
     = Raised ValueError
  /\ translate Sample.cpython Sample.huge_filter_src Sample.huge_filter
     = Printed fallback_response.
Proof.
  split; [reflexivity|]. split; [vm_compute; reflexivity|].
  apply (proj2 (traversal_fault_response Sample.cpython
                  Sample.huge_filter_src)
           [Sample.load 1] Sample.huge_test []
           (_add_step (init Sample.huge_filter_src) Sample.load_step)
           ValueError).
  - reflexivity.
  - vm_compute. reflexivity.
Defined.


(** C5, the claim as stated fails: the script [x = y[y['a'] > 1]], written
    over names other than the tracked one, gets a filter step. *)
Lemma other_names_emit_filter :
  main Sample.cpython Sample.other_names_src
  = Printed
      (response
         [json_step "filter"
            [("column", JStr "a"); ("operator", JStr "gt");
             ("value", JStr "1")]]
         false).
Proof. reflexivity. Qed.

Lemma df_to_y_keeps_aliases : keeps_aliases Sample.df_to_y.
Proof.
  intro id. unfold Sample.df_to_y.
  destruct (String.eqb_spec id "df") as [->|]; reflexivity.
Defined.

Lemma idioms_ignore_identifiers_witness :
  keeps_aliases Sample.df_to_y
  /\ visit_Assign Sample.cpython (init Sample.other_names_src)
       [ast.Name "x"]
       (ast.Subscript (ast.Name "y")
          (ast.Compare (ast.Subscript (ast.Name "y") (Sample.str "a"))
             [ast.Gt] [ast.Constant (CInt 1)]))
       1 (Some 1)
     = Ok (_add_step (init Sample.other_names_src)
             (mkStep "filter"
                [("column", CfgStr "a"); ("operator", CfgStr "gt");
                 ("value", CfgStr "1")])).
Proof.
  split; [exact df_to_y_keeps_aliases|].
  apply (proj2 (proj1 (proj2 (idioms_ignore_identifiers Sample.cpython
                                Sample.df_to_y df_to_y_keeps_aliases))
                  (init Sample.other_names_src) Sample.df (ast.Name "x")
                  (ast.Subscript Sample.df
                     (ast.Compare (ast.Subscript Sample.df (Sample.str "a"))
                        [ast.Gt] [ast.Constant (CInt 1)]))
                  (mkStep "filter"
                     [("column", CfgStr "a"); ("operator", CfgStr "gt");
                      ("value", CfgStr "1")])
                  1 (Some 1) 1 (Some 1) eq_refl)).
Defined.

(** C6, the claim as stated fails: in [df = df[['a', 1]]] the element [1]
    resolves to no string, and yet the extractor returns the column [a] and
    the select step is printed. *)
Lemma mixed_select_emits_step :
  get_string_from_node (ast.Constant (CInt 1)) = None
  /\ get_column_list
       (ast.Subscript Sample.df
          (ast.List [Sample.str "a"; ast.Constant (CInt 1)]))
     = Some ["a"%string]
  /\ main Sample.cpython Sample.mixed_select_src
     = Printed
         (response [json_step "select" [("columns", JArr [JStr "a"])]] false).
Proof. repeat split. Qed.


(** C8, the claim as stated fails.  In
    [df = df.groupby('a').head(3).sum()] the aggregation is chained after a
    [groupby] call, and the unwinding stops at the call of [head]: the
    group column of the step is empty, not [a].  In
    [df = df.groupby('a')[0]['b'].sum()] the column [b] is selected between
    the [groupby] call and the aggregation, and the aggregate column of
    the step is [a]. *)
Lemma call_wrapper_ends_walk :
  translate Sample.cpython Sample.through_call_src Sample.through_call
  = Printed
      (response
         [json_step "groupBy"
            [("groupByColumn", JStr ""); ("aggregateColumn", JStr "");
             ("aggregation", JStr "sum")]]
         false)
  /\ translate Sample.cpython Sample.two_subscripts_src Sample.two_subscripts
     = Printed
         (response
            [json_step "groupBy"
               [("groupByColumn", JStr "a"); ("aggregateColumn", JStr "a");
                ("aggregation", JStr "sum")]]
            false).
Proof. split; reflexivity. Qed.

(** [df = df.groupby('a')['b'].mean()]. *)
Lemma chained_aggregation_step_witness :
  in_strings "mean" ["sum"; "mean"; "count"; "min"; "max"]%string = true
  /\ ends_walk
       (ast.Call (ast.Attribute Sample.df "groupby") [Sample.str "a"] [])
     = true
  /\ visit_Assign Sample.cpython (init "df = df.groupby('a')['b'].mean()")
       [Sample.df]
       (ast.Call
          (ast.Attribute
             (ast.Subscript
                (ast.Call (ast.Attribute Sample.df "groupby")
                   [Sample.str "a"] [])
                (Sample.str "b"))
             "mean")
          [] [])
       1 (Some 1)
     = Ok (_add_step (init "df = df.groupby('a')['b'].mean()")
             (mkStep "groupBy"
                [("groupByColumn", CfgStr "a");
                 ("aggregateColumn", CfgStr "b");
                 ("aggregation", CfgStr "avg")])).
Proof.
  split; [reflexivity|]. split; [reflexivity|].
  exact (proj2
           (chained_aggregation_step Sample.cpython
              (init "df = df.groupby('a')['b'].mean()") Sample.df
              (ast.Subscript
                 (ast.Call (ast.Attribute Sample.df "groupby")
                    [Sample.str "a"] [])
                 (Sample.str "b"))
              "mean" [] [] 1 (Some 1) eq_refl)
           [WSubscript (Sample.str "b")]
           (ast.Call (ast.Attribute Sample.df "groupby") [Sample.str "a"] [])
           eq_refl eq_refl).
Defined.


(** * Further properties of the extractor *)

(** ** Nesting and order *)

Lemma bind_Ok {A : Type} (r : result A) : (a <- r ;; Ok a) = r.
Proof. destruct r; reflexivity. Qed.

Lemma visit_simple_statements (I : interpreter) (node : ast.stmt) :
  forall self,
    visit I node self = generic_visit I (simple_statements node) self.
Proof.
  induction node as [targets value lineno end_lineno | value | nested IH]
    using stmt_nested_ind; intro self.
  - simpl. now rewrite bind_Ok.
  - reflexivity.
  - rewrite visit_OtherStmt. simpl. revert self.
    induction IH as [|child rest Hchild _ IHrest]; intro self.
    + reflexivity.
    + simpl. rewrite generic_visit_app, Hchild.
      destruct (generic_visit I (simple_statements child) self); simpl.
      * apply IHrest.
      * reflexivity.
Qed.

Lemma generic_visit_flatten (I : interpreter) (tree : list ast.stmt) :
  forall self, generic_visit I tree self = generic_visit I (flatten tree) self.
Proof.
  induction tree as [|child rest IH]; intro self; [reflexivity|].
  unfold flatten. simpl. rewrite generic_visit_app, visit_simple_statements.
  destruct (generic_visit I (simple_statements child) self); simpl.
  - apply IH.
  - reflexivity.
Qed.

(** X1. Nesting is invisible: a statement inside a compound statement is
    visited exactly as if it stood at the top level, so the traversal of a
    tree, and the document printed for it, are those of the flat list of
    its assignments and expression statements in source order. *)
Theorem nesting_is_invisible (I : interpreter) (src : string)
    (tree : list ast.stmt) (self : PipelineExtractor) :
  generic_visit I tree self = generic_visit I (flatten tree) self
  /\ translate I src tree = translate I src (flatten tree).
Proof.
  split; [apply generic_visit_flatten|].
  unfold translate. now rewrite generic_visit_flatten.
Qed.

(** X2. A script without any assignment or expression statement, the
    empty script included, gets the response of the failure tier. *)
Theorem no_simple_statement_no_step (I : interpreter) (src : string)
    (tree : list ast.stmt) :
  flatten tree = [] ->
  translate I src tree = Printed fallback_response.
Proof.
  intro Hflat. unfold translate.
  rewrite generic_visit_flatten, Hflat. reflexivity.
Qed.

Lemma replay_init (src : string) (extractor : PipelineExtractor) :
  lines extractor = splitlines src ->
  df_name extractor = "df"%string ->
  replay extractor (init src) = extractor.
Proof.
  intros Hlines Hname. destruct extractor as [s l st fl d].
  simpl in *. subst. unfold replay, init. simpl.
  now rewrite app_nil_r, orb_false_r.
Qed.

Lemma visit_Assign_replay (I : interpreter) (base self : PipelineExtractor)
    (targets : list ast.expr) (value : ast.expr) (lineno : Z)
    (end_lineno : option Z) :
  visit_Assign I (replay base self) targets value lineno end_lineno
  = (self' <- visit_Assign I self targets value lineno end_lineno ;;
     Ok (replay base self')).
Proof.
  unfold visit_Assign.
  destruct targets as [|target [|second others]]; try reflexivity.
  destruct (assign_idioms I value) as [[s|]|e]; simpl; try reflexivity.
  - unfold replay, _add_step. simpl. now rewrite app_assoc.
  - f_equal. unfold assign_tail.
    destruct target as [| id | | tbase slice | | | | | | | | | | | |];
      try reflexivity.
    + simpl. destruct (String.eqb id (df_name self)); [|reflexivity].
      unfold replay, set_fallback. simpl. now rewrite orb_true_r.
    + destruct (get_string_from_node (ast.Subscript tbase slice));
        [|reflexivity].
      change (lines (replay base self)) with (lines self).
      destruct (nonempty (unparse_simple lineno end_lineno (lines self))).
      * unfold replay, _add_step. simpl. now rewrite app_assoc.
      * unfold replay, set_fallback. simpl. now rewrite orb_true_r.
Qed.

Lemma visit_Expr_replay (base self : PipelineExtractor) (value : ast.expr) :
  visit_Expr (replay base self) value = replay base (visit_Expr self value).
Proof.
  unfold visit_Expr. destruct (chart_idiom value); [|reflexivity].
  unfold replay, _add_step. simpl. now rewrite app_assoc.
Qed.

Lemma visit_replay (I : interpreter) (base : PipelineExtractor)
    (node : ast.stmt) :
  forall self,
    visit I node (replay base self)
    = (self' <- visit I node self ;; Ok (replay base self')).
Proof.
  induction node as [targets value lineno end_lineno | value | nested IH]
    using stmt_nested_ind; intro self.
  - apply visit_Assign_replay.
  - simpl. now rewrite visit_Expr_replay.
  - rewrite !visit_OtherStmt. revert self.
    induction IH as [|child rest Hchild _ IHrest]; intro self.
    + reflexivity.
    + simpl. rewrite Hchild.
      destruct (visit I child self); simpl; [apply IHrest|reflexivity].
Qed.

Lemma generic_visit_replay (I : interpreter) (base : PipelineExtractor)
    (tree : list ast.stmt) :
  forall self,
    generic_visit I tree (replay base self)
    = (self' <- generic_visit I tree self ;; Ok (replay base self')).
Proof.
  induction tree as [|child rest IH]; intro self; [reflexivity|].
  simpl. rewrite visit_replay.
  destruct (visit I child self); simpl; [apply IH|reflexivity].
Qed.

(** X3. Steps come in source order and a statement's step does not depend
    on what precedes it: when two stretches of statements are each
    traversed without fault from the start, the traversal of the first
    followed by the second ends with the steps of the first followed by
    those of the second, and its flag is set exactly when one of theirs
    is. *)
Theorem steps_of_concatenation (I : interpreter) (src : string)
    (first second : list ast.stmt) (ex1 ex2 : PipelineExtractor) :
  generic_visit I first (init src) = Ok ex1 ->
  generic_visit I second (init src) = Ok ex2 ->
  exists extractor,
    generic_visit I (first ++ second) (init src) = Ok extractor
    /\ steps extractor = steps ex1 ++ steps ex2
    /\ fallback_to_llm extractor
       = fallback_to_llm ex1 || fallback_to_llm ex2.
Proof.
  intros Hfirst Hsecond.
  exists (replay ex1 ex2). split; [|split; reflexivity].
  rewrite generic_visit_app, Hfirst. simpl.
  pose proof (generic_visit_advances I first _ _ Hfirst)
    as (_ & Hlines & Hname & _).
  rewrite <- (replay_init src ex1 Hlines Hname) at 1.
  rewrite generic_visit_replay, Hsecond. reflexivity.
Qed.

(** ** Where the steps come from *)

Lemma visit_Assign_emits (I : interpreter) (self self' : PipelineExtractor)
    (targets : list ast.expr) (value : ast.expr) (lineno : Z)
    (end_lineno : option Z) (s : step) :
  visit_Assign I self targets value lineno end_lineno = Ok self' ->
  In s (steps self') ->
  In s (steps self)
  \/ emits I (lines self) (ast.Assign targets value lineno end_lineno) s.
Proof.
  unfold visit_Assign, emits.
  destruct targets as [|target [|second others]];
    try (intros [= <-]; now left).
  destruct (assign_idioms I value) as [[st|]|e]; simpl; try discriminate.
  - intros [= <-] Hin. simpl in Hin. apply in_app_or in Hin.
    destruct Hin as [Hin|[<-|[]]]; [now left|right; now left].
  - intros [= <-]. unfold assign_tail.
    destruct target as [| id | | base slice | | | | | | | | | | | |];
      try (now left).
    + destruct (is_Name (ast.Name id) (df_name self)); now left.
    + destruct (get_string_from_node (ast.Subscript base slice))
        as [col_name|] eqn:Hcol; [|now left].
      destruct (nonempty (unparse_simple lineno end_lineno (lines self)))
        eqn:Hspan; [|now left].
      simpl. intro Hin. apply in_app_or in Hin.
      destruct Hin as [Hin|[<-|[]]]; [now left|].
      right; right. split; [reflexivity|].
      exists base, slice, col_name. repeat split; assumption.
Qed.

Lemma visit_emits (I : interpreter) (node : ast.stmt) :
  forall self self' s,
    visit I node self = Ok self' ->
    In s (steps self') ->
    In s (steps self)
    \/ exists n, In n (descendants node) /\ emits I (lines self) n s.
Proof.
  induction node as [targets value lineno end_lineno | value | nested IH]
    using stmt_nested_ind; intros self self' s Hvisit Hin.
  - destruct (visit_Assign_emits I _ _ _ _ _ _ s Hvisit Hin) as [Hold|Hnew];
      [now left|].
    right. eexists. split; [left; reflexivity|exact Hnew].
  - simpl in Hvisit. injection Hvisit as <-. unfold visit_Expr in Hin.
    destruct (chart_idiom value) as [st|] eqn:Hchart; [|now left].
    simpl in Hin. apply in_app_or in Hin.
    destruct Hin as [Hin|[<-|[]]]; [now left|].
    right. exists (ast.Expr value). split; [left; reflexivity|exact Hchart].
  - rewrite visit_OtherStmt in Hvisit.
    assert (Hbody : In s (steps self)
                    \/ exists n, In n (flat_map descendants nested)
                                 /\ emits I (lines self) n s).
    { clear -IH Hvisit Hin. revert self Hvisit.
      induction IH as [|child rest Hchild _ IHrest]; intros self Hvisit.
      - simpl in Hvisit. injection Hvisit as <-. now left.
      - simpl in Hvisit.
        destruct (visit I child self) as [mid|e] eqn:Hmid; [|discriminate].
        simpl in Hvisit.
        pose proof (visit_advances I child _ _ Hmid) as (_ & Hlines & _).
        destruct (IHrest mid Hvisit) as [Hold|(n & Hn & Hemit)].
        + destruct (Hchild self mid s Hmid Hold) as [Hold'|(n & Hn & Hemit)];
            [now left|].
          right. exists n. split; [|exact Hemit].
          simpl. apply in_or_app. now left.
        + right. exists n. split.
          * simpl. apply in_or_app. now right.
          * now rewrite <- Hlines. }
    destruct Hbody as [Hold|(n & Hn & Hemit)]; [now left|].
    right. exists n. split; [right; exact Hn|exact Hemit].
Qed.

Lemma generic_visit_emits (I : interpreter) (tree : list ast.stmt) :
  forall self self' s,
    generic_visit I tree self = Ok self' ->
    In s (steps self') ->
    In s (steps self)
    \/ exists n, In n (statements tree) /\ emits I (lines self) n s.
Proof.
  induction tree as [|child rest IH]; intros self self' s Hvisit Hin.
  - simpl in Hvisit. injection Hvisit as <-. now left.
  - simpl in Hvisit.
    destruct (visit I child self) as [mid|e] eqn:Hmid; [|discriminate].
    simpl in Hvisit.
    pose proof (visit_advances I child _ _ Hmid) as (_ & Hlines & _).
    destruct (IH mid self' s Hvisit Hin) as [Hold|(n & Hn & Hemit)].
    + destruct (visit_emits I child self mid s Hmid Hold)
        as [Hold'|(n & Hn & Hemit)]; [now left|].
      right. exists n. split; [|exact Hemit].
      unfold statements. simpl. apply in_or_app. now left.
    + right. exists n. split.
      * unfold statements. simpl. apply in_or_app. now right.
      * now rewrite <- Hlines.
Qed.

(** ** The vocabulary of the steps *)

Lemma in_strings_In (s : string) (l : list string) :
  in_strings s l = true -> In s l.
Proof.
  unfold in_strings. rewrite existsb_exists.
  intros (x & Hx & Heq). apply String.eqb_eq in Heq. now subst.
Qed.

Lemma filter_idiom_well_formed (I : interpreter) (slice : ast.expr)
    (s : step) :
  filter_idiom I slice = Ok (Some s) -> well_formed_step s = true.
Proof.
  unfold filter_idiom.
  destruct (unwrap_Index slice) as [e|c]; [|discriminate].
  destruct e as [| | | | |left_node ops comparators| | | | | | | | | |];
    try discriminate.
  destruct comparators as [|right_node [|second others]]; try discriminate.
  destruct ops as [|op rest]; [discriminate|].
  destruct (truthy_str (get_string_from_node left_node)) as [col|];
    [|discriminate].
  destruct (FILTER_OPS op) as [name|] eqn:Hop; [|discriminate].
  destruct (is_None (get_constant_value right_node)); [discriminate|].
  destruct (py_str I (get_constant_value right_node)) as [text|e];
    [|discriminate].
  simpl. intros [= <-].
  destruct op; simpl in Hop; try discriminate; injection Hop as <-;
    reflexivity.
Qed.

Lemma subscript_idioms_well_formed (I : interpreter) (value : ast.expr)
    (s : step) :
  subscript_idioms I value = Ok (Some s) -> well_formed_step s = true.
Proof.
  destruct value as [| | |base slice| | | | | | | | | | | |];
    try discriminate.
  unfold subscript_idioms.
  destruct (filter_idiom I slice) as [[f|]|e] eqn:Hfilter; cbn [bind];
    try discriminate.
  - intros [= <-]. now apply (filter_idiom_well_formed I slice).
  - destruct (get_column_list (ast.Subscript base slice)); [|discriminate].
    now intros [= <-].
Qed.

Lemma aggregation_idiom_well_formed (func : ast.expr) (s : step) :
  aggregation_idiom func = Some s -> well_formed_step s = true.
Proof.
  destruct func as [| |fvalue m| | | | | | | | | | | | |]; try discriminate.
  unfold aggregation_idiom.
  destruct (in_strings m ["sum"; "mean"; "count"; "min"; "max"]) eqn:Hm;
    [|discriminate].
  destruct (walk_back fvalue "") as [group_col agg_col].
  intros [= <-]. apply in_strings_In in Hm.
  destruct Hm as [<-|[<-|[<-|[<-|[<-|[]]]]]]; reflexivity.
Qed.

Lemma call_idioms_well_formed (value : ast.expr) (s : step) :
  call_idioms value = Some s -> well_formed_step s = true.
Proof.
  destruct value as [| | | |func args keywords| | | | | | | | | | |];
    try discriminate.
  unfold call_idioms.
  destruct (read_csv_idiom func args) as [st|] eqn:Hread.
  { intros [= <-]. unfold read_csv_idiom in Hread.
    destruct func as [| |fvalue attr| | | | | | | | | | | | |];
      try discriminate.
    destruct (String.eqb attr "read_csv"); [|discriminate].
    destruct fvalue as [|id| | | | | | | | | | | | | |]; try discriminate.
    destruct (in_strings id ["pd"; "pandas"]); [|discriminate].
    now injection Hread as <-. }
  destruct (groupby_idiom func args keywords) as [st|] eqn:Hgroup.
  { intros [= <-]. unfold groupby_idiom in Hgroup.
    destruct func as [| |fvalue attr| | | | | | | | | | | | |];
      try discriminate.
    destruct (String.eqb attr "groupby"); [|discriminate].
    now injection Hgroup as <-. }
  destruct (aggregation_idiom func) as [st|] eqn:Hagg.
  { intros [= <-]. now apply (aggregation_idiom_well_formed func). }
  destruct (sort_values_idiom func args keywords) as [st|] eqn:Hsort.
  { intros [= <-]. unfold sort_values_idiom in Hsort.
    destruct func as [| |fvalue attr| | | | | | | | | | | | |];
      try discriminate.
    destruct (String.eqb attr "sort_values"); [|discriminate].
    destruct (sort_keywords keywords _) as [col ascending].
    injection Hsort as <-. now destruct ascending. }
  simpl. unfold melt_idiom.
  destruct func as [| |fvalue attr| | | | | | | | | | | | |];
    try discriminate.
  destruct (String.eqb attr "melt"); [|discriminate].
  destruct (value_vars _); [discriminate|].
  now intros [= <-].
Qed.

Lemma chart_idiom_well_formed (value : ast.expr) (s : step) :
  chart_idiom value = Some s -> well_formed_step s = true.
Proof.
  unfold chart_idiom.
  destruct value as [| | | |func args keywords| | | | | | | | | | |];
    try discriminate.
  destruct func as [| |fvalue chart_attr| | | | | | | | | | | | |];
    try discriminate.
  destruct fvalue as [| |v a| | | | | | | | | | | | |]; try discriminate.
  destruct (_ || _); [|discriminate].
  destruct (in_strings chart_attr _); [|discriminate].
  destruct (match args with [] => _ | _ => _ end) as [x_axis y_axis].
  intros [= <-]. unfold well_formed_step, one_of, chart_type. simpl.
  destruct (String.eqb chart_attr "plot"); [reflexivity|].
  destruct (String.eqb chart_attr "scatter"); [reflexivity|].
  destruct (String.eqb chart_attr "pie"); reflexivity.
Qed.

Lemma emits_well_formed (I : interpreter) (source_lines : list string)
    (node : ast.stmt) (s : step) :
  emits I source_lines node s -> well_formed_step s = true.
Proof.
  destruct node as [targets value lineno end_lineno | value | nested];
    simpl; [| apply chart_idiom_well_formed | easy].
  destruct targets as [|target [|second others]]; try easy.
  intros [Hidiom | (_ & base & slice & col & _ & _ & _ & ->)];
    [|reflexivity].
  unfold assign_idioms in Hidiom.
  destruct (subscript_idioms I value) as [[st|]|e] eqn:Hsub; simpl in Hidiom;
    try discriminate.
  - injection Hidiom as <-. now apply (subscript_idioms_well_formed I value).
  - injection Hidiom as Hcall. now apply (call_idioms_well_formed value).
Qed.

(** X4. Every step the traversal leaves is of one of the eight kinds, with
    exactly the keys of its kind in their order, and with [operator] among
    [eq], [neq], [lt], [gt], [aggregation] among [count], [sum], [avg],
    [min], [max] (never [mean]), [direction] among [asc], [desc] and
    [chartType] among [bar], [line], [scatter], [pie]. *)
Theorem steps_are_well_formed (I : interpreter) (src : string)
    (tree : list ast.stmt) (extractor : PipelineExtractor) :
  generic_visit I tree (init src) = Ok extractor ->
  forallb well_formed_step (steps extractor) = true.
Proof.
  intro Hvisit. apply forallb_forall. intros s Hin.
  destruct (generic_visit_emits I tree _ _ s Hvisit Hin)
    as [[]|(n & _ & Hemit)].
  exact (emits_well_formed I _ n s Hemit).
Qed.

(** ** When a document is printed *)

Lemma plain_step_dumps (I : interpreter) (s : step) :
  plain_step s = true -> exists j, dumps_node I s = Ok j.
Proof.
  unfold plain_step, dumps_node. intro Hplain.
  assert (Hcfg : exists js, dumps_config I (config s) = Ok js).
  { induction (config s) as [|[key v] rest IH]; [now exists []|].
    simpl in Hplain. apply andb_true_iff in Hplain.
    destruct Hplain as [Hv Hrest]. destruct (IH Hrest) as [js Hjs].
    simpl. rewrite Hjs.
    destruct v as [[| | | | |str| |]|l]; try discriminate; simpl;
      eexists; reflexivity. }
  destruct Hcfg as [js ->]. simpl. eexists. reflexivity.
Qed.

Lemma subscript_idioms_plain (I : interpreter) (value : ast.expr)
    (s : step) :
  subscript_idioms I value = Ok (Some s) -> plain_step s = true.
Proof.
  destruct value as [| | |base slice| | | | | | | | | | | |];
    try discriminate.
  unfold subscript_idioms, filter_idiom.
  destruct (unwrap_Index slice) as [e|c].
  - destruct e as [| | | | |left_node ops comparators| | | | | | | | | |];
      cbn [bind];
      try (destruct (get_column_list _); [now intros [= <-]|discriminate]).
    destruct comparators as [|right_node [|second others]]; cbn [bind];
      try (destruct (get_column_list _); [now intros [= <-]|discriminate]).
    destruct ops as [|op rest]; [discriminate|].
    destruct (truthy_str _); cbn [bind];
      try (destruct (get_column_list _); [now intros [= <-]|discriminate]).
    destruct (FILTER_OPS op); cbn [bind];
      try (destruct (get_column_list _); [now intros [= <-]|discriminate]).
    destruct (is_None _); cbn [bind];
      try (destruct (get_column_list _); [now intros [= <-]|discriminate]).
    destruct (py_str I _); cbn [bind]; [now intros [= <-]|discriminate].
  - cbn [bind].
    destruct (get_column_list _); [now intros [= <-]|discriminate].
Qed.

Lemma groupby_keywords_cases (keywords : list ast.keyword) :
  forall group_col,
    groupby_keywords keywords group_col = group_col
    \/ exists s, groupby_keywords keywords group_col = CStr s.
Proof.
  unfold groupby_keywords.
  induction keywords as [|kw rest IH]; intro group_col; [now left|].
  simpl. destruct (is_str (ast.arg kw) "by"); [|apply IH].
  destruct (truthy_str _) as [g|]; [|apply IH].
  destruct (IH (CStr g)) as [->|Hs]; [right; now exists g|now right].
Qed.

Lemma serializable_dumps (I : interpreter) (c : constant) :
  serializable I c = true -> exists j, dumps_constant I c = Ok j.
Proof.
  unfold serializable. destruct (dumps_constant I c) as [j|e];
    [now exists j|discriminate].
Qed.

Lemma call_idioms_dumps (I : interpreter) (value : ast.expr) (s : step) :
  (forall fvalue c rest keywords,
      value = ast.Call (ast.Attribute fvalue "groupby")
                (ast.Constant c :: rest) keywords ->
      serializable I c = true) ->
  call_idioms value = Some s ->
  exists j, dumps_node I s = Ok j.
Proof.
  intros Hsafe.
  destruct value as [| | | |func args keywords| | | | | | | | | | |];
    try discriminate.
  unfold call_idioms.
  destruct (read_csv_idiom func args) as [st|] eqn:Hread.
  { intros [= <-]. apply plain_step_dumps. unfold read_csv_idiom in Hread.
    destruct func as [| |fvalue attr| | | | | | | | | | | | |];
      try discriminate.
    destruct (String.eqb attr "read_csv"); [|discriminate].
    destruct fvalue as [|id| | | | | | | | | | | | | |]; try discriminate.
    destruct (in_strings id ["pd"; "pandas"]); [|discriminate].
    now injection Hread as <-. }
  destruct (groupby_idiom func args keywords) as [st|] eqn:Hgroup.
  { intros [= <-]. unfold groupby_idiom in Hgroup.
    destruct func as [| |fvalue attr| | | | | | | | | | | | |];
      try discriminate.
    destruct (String.eqb_spec attr "groupby") as [->|]; [|discriminate].
    injection Hgroup as <-.
    set (group_col := match args with
                      | ast.Constant c :: _ => c
                      | arg0 :: _ => of_optional_str (get_string_from_node arg0)
                      | [] => CStr ""
                      end).
    assert (Hgroup : exists j, dumps_constant I group_col = Ok j).
    { subst group_col. destruct args as [|arg0 rest]; [now eexists|].
      destruct arg0 as [c| | | | | | | | | | | | | | |];
        try (now eexists);
        try (simpl; destruct (get_string_from_node _); now eexists).
      apply serializable_dumps. now apply (Hsafe fvalue c rest keywords). }
    assert (Hagg : exists j,
               dumps_constant I
                 (match fvalue with
                  | ast.Subscript _ slice =>
                      match truthy_str (get_string_from_node slice) with
                      | Some s => CStr s
                      | None => group_col
                      end
                  | _ => group_col
                  end) = Ok j).
    { destruct fvalue; try exact Hgroup.
      destruct (truthy_str _); [now eexists|exact Hgroup]. }
    assert (Hkw : exists j,
               dumps_constant I (groupby_keywords keywords group_col) = Ok j).
    { destruct (groupby_keywords_cases keywords group_col) as [->|[s ->]];
        [exact Hgroup|now eexists]. }
    destruct Hkw as [j1 Hj1]. destruct Hagg as [j2 Hj2].
    unfold dumps_node. simpl. rewrite Hj1. simpl. rewrite Hj2. simpl.
    eexists. reflexivity. }
  destruct (aggregation_idiom func) as [st|] eqn:Hagg.
  { intros [= <-]. apply plain_step_dumps. unfold aggregation_idiom in Hagg.
    destruct func as [| |fvalue m| | | | | | | | | | | | |];
      try discriminate.
    destruct (in_strings m _); [|discriminate].
    destruct (walk_back fvalue "") as [group_col agg_col].
    now injection Hagg as <-. }
  destruct (sort_values_idiom func args keywords) as [st|] eqn:Hsort.
  { intros [= <-]. apply plain_step_dumps. unfold sort_values_idiom in Hsort.
    destruct func as [| |fvalue attr| | | | | | | | | | | | |];
      try discriminate.
    destruct (String.eqb attr "sort_values"); [|discriminate].
    destruct (sort_keywords keywords _) as [col ascending].
    now injection Hsort as <-. }
  simpl. unfold melt_idiom.
  destruct func as [| |fvalue attr| | | | | | | | | | | | |];
    try discriminate.
  destruct (String.eqb attr "melt"); [|discriminate].
  destruct (value_vars _); [discriminate|].
  intros [= <-]. now apply plain_step_dumps.
Qed.

Lemma chart_idiom_plain (value : ast.expr) (s : step) :
  chart_idiom value = Some s -> plain_step s = true.
Proof.
  unfold chart_idiom.
  destruct value as [| | | |func args keywords| | | | | | | | | | |];
    try discriminate.
  destruct func as [| |fvalue chart_attr| | | | | | | | | | | | |];
    try discriminate.
  destruct fvalue as [| |v a| | | | | | | | | | | | |]; try discriminate.
  destruct (_ || _); [|discriminate].
  destruct (in_strings chart_attr _); [|discriminate].
  destruct (match args with [] => _ | _ => _ end) as [x_axis y_axis].
  now intros [= <-].
Qed.

Lemma emits_dumps (I : interpreter) (source_lines : list string)
    (node : ast.stmt) (s : step) :
  (forall c, groupby_constant node = Some c -> serializable I c = true) ->
  emits I source_lines node s ->
  exists j, dumps_node I s = Ok j.
Proof.
  intro Hsafe.
  destruct node as [targets value lineno end_lineno | value | nested];
    simpl; [| |easy].
  - destruct targets as [|target [|second others]]; try easy.
    intros [Hidiom | (_ & base & slice & col & _ & _ & _ & ->)];
      [|now apply plain_step_dumps].
    unfold assign_idioms in Hidiom.
    destruct (subscript_idioms I value) as [[st|]|e] eqn:Hsub;
      simpl in Hidiom; try discriminate.
    + injection Hidiom as <-. apply plain_step_dumps.
      now apply (subscript_idioms_plain I value).
    + injection Hidiom as Hcall.
      apply (call_idioms_dumps I value s); [|exact Hcall].
      intros fvalue c rest keywords ->. apply Hsafe. reflexivity.
  - intro Hchart. apply plain_step_dumps.
    now apply (chart_idiom_plain value).
Qed.

Lemma dumps_nodes_all (I : interpreter) (l : list step) :
  (forall s, In s l -> exists j, dumps_node I s = Ok j) ->
  exists js, dumps_nodes I l = Ok js.
Proof.
  induction l as [|s rest IH]; intro Hall; [now exists []|].
  destruct (Hall s (or_introl eq_refl)) as [j Hj].
  destruct IH as [js Hjs]; [intros s' Hs'; apply Hall; now right|].
  simpl. rewrite Hj. simpl. rewrite Hjs. simpl. eexists. reflexivity.
Qed.

(** X5. [main] prints a document, and no exception leaves it, whenever the
    parser returns a tree in which every one-shot [groupby] assignment
    whose first positional argument is a constant has one that
    [json.dumps] accepts (none, a boolean, a string, a float, or an integer
    within the digit limit). *)
Theorem document_is_printed (I : interpreter) (src : string)
    (tree : list ast.stmt) :
  ast_parse I src = Parsed tree ->
  (forall node c,
      In node (statements tree) ->
      groupby_constant node = Some c ->
      serializable I c = true) ->
  exists doc, main I src = Printed doc.
Proof.
  intros Hparse Hsafe. unfold main. rewrite Hparse. unfold translate.
  destruct (generic_visit I tree (init src)) as [extractor|e] eqn:Hvisit;
    [|now eexists].
  unfold print_result.
  destruct (dumps_nodes_all I (steps extractor)) as [js ->];
    [|now eexists].
  intros s Hin.
  destruct (generic_visit_emits I tree _ _ s Hvisit Hin)
    as [[]|(n & Hn & Hemit)].
  refine (emits_dumps I _ n s _ Hemit).
  intros c Hc. now apply (Hsafe n c).
Qed.

(** X6. An exception does leave [main] otherwise: for the script made of
    one assignment [target = recv.groupby(c, ...)] without keyword, where
    [c] is a constant that [json.dumps] rejects with [e] (bytes, a complex
    number, the ellipsis: [TypeError]; an integer beyond the digit limit:
    [ValueError]), the traversal succeeds and nothing is printed. *)
Theorem groupby_constant_escapes (I : interpreter) (src : string)
    (target recv : ast.expr) (c : constant) (rest : list ast.expr)
    (lineno : Z) (end_lineno : option Z) (e : exn) :
  dumps_constant I c = Raised e ->
  translate I src
    [ast.Assign [target]
       (ast.Call (ast.Attribute recv "groupby") (ast.Constant c :: rest) [])
       lineno end_lineno]
  = Uncaught e.
Proof.
  intro Hc. unfold translate, print_result. simpl.
  unfold dumps_node. simpl. rewrite Hc. reflexivity.
Qed.

(** ** The idioms one by one *)

(** X7. [df = <root>.read_csv(...)] is a data source only when [root] is
    the bare name [pd] or [pandas]: the step then carries the first
    positional argument when it resolves to a non-empty string and
    [data.csv] otherwise, whatever the keywords are.  Under any other root
    the statement matches nothing: the document has no step and the
    fallback flag. *)
Theorem read_csv_alias_and_default (I : interpreter) (src : string)
    (root : ast.expr) (args : list ast.expr) (kws : list ast.keyword)
    (lineno : Z) (end_lineno : option Z) :
  translate I src
    [ast.Assign [ast.Name "df"]
       (ast.Call (ast.Attribute root "read_csv") args kws)
       lineno end_lineno]
  = if is_Name root "pd" || is_Name root "pandas" then
      Printed
        (response
           [json_step "dataSource"
              [("fileName",
                JStr (if nonempty (axis (nth_error args 0))
                      then axis (nth_error args 0) else "data.csv"))]]
           false)
    else Printed fallback_response.
Proof.
  unfold translate, generic_visit, visit, visit_Assign, assign_idioms.
  cbn [subscript_idioms bind orelse call_idioms read_csv_idiom String.eqb
       Ascii.eqb Bool.eqb].
  destruct root as [|id| | | | | | | | | | | | | |]; try reflexivity.
  cbn [is_Name in_strings existsb].
  destruct (String.eqb id "pd" || (String.eqb id "pandas" || false)) eqn:Hid.
  - replace (String.eqb id "pd" || String.eqb id "pandas") with true
      by (now rewrite orb_false_r in Hid).
    destruct args as [|arg0 rest]; [reflexivity|].
    cbn [nth_error]. rewrite str_or_axis.
    destruct (axis (Some arg0)) as [|ch tail]; reflexivity.
  - replace (String.eqb id "pd" || String.eqb id "pandas") with false
      by (now rewrite orb_false_r in Hid).
    reflexivity.
Qed.

Lemma str_or_truthy (x : option string) (d : string) :
  str_or x d = match truthy_str x with Some s => s | None => d end.
Proof. destruct x as [s|]; [|reflexivity]. simpl. now destruct (nonempty s). Qed.

Lemma sort_keywords_last (keywords : list ast.keyword) :
  forall col ascending,
    sort_keywords keywords (col, ascending)
    = (match last_some by_column keywords with
       | Some c => c
       | None => col
       end,
       match last_some ascending_value keywords with
       | Some b => b
       | None => ascending
       end).
Proof.
  unfold sort_keywords.
  induction keywords as [|kw rest IH]; intros col ascending; [reflexivity|].
  cbn [fold_left last_some]. rewrite IH.
  unfold by_column, ascending_value.
  destruct (last_some _ rest) as [c|]; destruct (last_some _ rest) as [b|];
    f_equal;
    try (destruct (is_str (ast.arg kw) "by"); [apply str_or_truthy|easy]);
    try (destruct (is_str (ast.arg kw) "ascending"); [|easy];
         now destruct (is_None _)).
Qed.

Lemma sort_values_idiom_last (recv : ast.expr) (args : list ast.expr)
    (kws : list ast.keyword) :
  sort_values_idiom (ast.Attribute recv "sort_values") args kws
  = Some
      (mkStep "sort"
         [("column",
           CfgStr (match last_some by_column kws with
                   | Some c => c
                   | None => axis (nth_error args 0)
                   end));
          ("direction",
           CfgStr (match last_some ascending_value kws with
                   | Some false => "desc"
                   | _ => "asc"
                   end))]).
Proof.
  unfold sort_values_idiom.
  change (String.eqb "sort_values" "sort_values") with true. cbv iota.
  rewrite sort_keywords_last.
  replace (match args with
           | [] => ""
           | arg0 :: _ => str_or (get_string_from_node arg0) ""
           end) with (axis (nth_error args 0))
    by (destruct args; [reflexivity|symmetry; apply str_or_axis]).
  destruct (last_some ascending_value kws) as [[|]|]; reflexivity.
Qed.

(** X8. [target = recv.sort_values(...)] always adds a sort step.  Its
    column is the one of the last keyword [by=] that resolves to a
    non-empty string, and the first positional argument only when there is
    none; its direction is [desc] exactly when the last keyword
    [ascending=] whose value is a constant other than [None] has a false
    value, and [asc] in every other case, a non-constant value included. *)
Theorem sort_values_keywords (I : interpreter) (self : PipelineExtractor)
    (target recv : ast.expr) (args : list ast.expr) (kws : list ast.keyword)
    (lineno : Z) (end_lineno : option Z) :
  visit_Assign I self [target]
    (ast.Call (ast.Attribute recv "sort_values") args kws) lineno end_lineno
  = Ok (_add_step self
          (mkStep "sort"
             [("column",
               CfgStr (match last_some by_column kws with
                       | Some c => c
                       | None => axis (nth_error args 0)
                       end));
              ("direction",
               CfgStr (match last_some ascending_value kws with
                       | Some false => "desc"
                       | _ => "asc"
                       end))])).
Proof.
  unfold visit_Assign, assign_idioms, subscript_idioms, call_idioms.
  cbn [bind orelse].
  change (read_csv_idiom (ast.Attribute recv "sort_values") args) with
    (@None step).
  change (groupby_idiom (ast.Attribute recv "sort_values") args kws) with
    (@None step).
  change (aggregation_idiom (ast.Attribute recv "sort_values")) with
    (@None step).
  cbn [orelse]. now rewrite sort_values_idiom_last.
Qed.

Lemma melt_keyword_not_id_vars (m m' : melt_vars) (kw : ast.keyword) :
  value_vars m = value_vars m' ->
  value_name m = value_name m' ->
  var_name m = var_name m' ->
  let r := melt_keyword m kw in
  let r' := if not_id_vars kw then melt_keyword m' kw else m' in
  value_vars r = value_vars r'
  /\ value_name r = value_name r'
  /\ var_name r = var_name r'.
Proof.
  intros Hvars Hname Hvar. unfold melt_keyword, not_id_vars.
  destruct (is_str (ast.arg kw) "id_vars"); simpl.
  - destruct (list_or_tuple _); [now repeat split|].
    destruct (truthy_str _); now repeat split.
  - destruct (is_str (ast.arg kw) "value_vars").
    + destruct (list_or_tuple _); simpl; [|now repeat split].
      rewrite Hvars. now repeat split.
    + destruct (is_str (ast.arg kw) "value_name"); simpl.
      * rewrite Hname. now repeat split.
      * destruct (is_str (ast.arg kw) "var_name"); simpl;
          [rewrite Hvar|]; now repeat split.
Qed.

Lemma melt_fold_not_id_vars (kws : list ast.keyword) :
  forall m m',
    value_vars m = value_vars m' ->
    value_name m = value_name m' ->
    var_name m = var_name m' ->
    let r := fold_left melt_keyword kws m in
    let r' := fold_left melt_keyword (filter not_id_vars kws) m' in
    value_vars r = value_vars r'
    /\ value_name r = value_name r'
    /\ var_name r = var_name r'.
Proof.
  induction kws as [|kw rest IH]; intros m m' Hvars Hname Hvar;
    [now repeat split|].
  pose proof (melt_keyword_not_id_vars m m' kw Hvars Hname Hvar)
    as (H1 & H2 & H3).
  cbn [fold_left filter]. destruct (not_id_vars kw); cbn [fold_left].
  - now apply IH.
  - now apply IH.
Qed.

Lemma melt_fold_no_value_vars (kws : list ast.keyword) :
  forallb not_value_vars kws = true ->
  forall m, value_vars (fold_left melt_keyword kws m) = value_vars m.
Proof.
  induction kws as [|kw rest IH]; intros Hall m; [reflexivity|].
  simpl in Hall. apply andb_true_iff in Hall. destruct Hall as [Hkw Hrest].
  cbn [fold_left]. rewrite (IH Hrest).
  unfold not_value_vars in Hkw. apply negb_true_iff in Hkw.
  unfold melt_keyword. rewrite Hkw.
  destruct (is_str (ast.arg kw) "id_vars").
  - destruct (list_or_tuple _); [reflexivity|].
    now destruct (truthy_str _).
  - destruct (is_str (ast.arg kw) "value_name"); [reflexivity|].
    now destruct (is_str (ast.arg kw) "var_name").
Qed.

(** X9. What [df.melt(...)] becomes does not depend on its [id_vars]:
    dropping every keyword [id_vars=] from the call changes nothing.  And
    a call without any keyword [value_vars=] is no reshape: assigned to
    [df] it leaves no step and the fallback flag. *)
Theorem melt_ignores_id_vars (I : interpreter) (src : string)
    (recv : ast.expr) (args : list ast.expr) (kws : list ast.keyword)
    (lineno : Z) (end_lineno : option Z) :
  call_idioms (ast.Call (ast.Attribute recv "melt") args kws)
  = call_idioms
      (ast.Call (ast.Attribute recv "melt") args (filter not_id_vars kws))
  /\ (forallb not_value_vars kws = true ->
      translate I src
        [ast.Assign [ast.Name "df"]
           (ast.Call (ast.Attribute recv "melt") args kws) lineno end_lineno]
      = Printed fallback_response).
Proof.
  split.
  - unfold call_idioms.
    change (read_csv_idiom (ast.Attribute recv "melt") args) with
      (@None step).
    change (aggregation_idiom (ast.Attribute recv "melt")) with (@None step).
    change (groupby_idiom (ast.Attribute recv "melt") args kws) with
      (@None step).
    change (groupby_idiom (ast.Attribute recv "melt") args
              (filter not_id_vars kws)) with (@None step).
    change (sort_values_idiom (ast.Attribute recv "melt") args kws) with
      (@None step).
    change (sort_values_idiom (ast.Attribute recv "melt") args
              (filter not_id_vars kws)) with (@None step).
    cbn [orelse]. unfold melt_idiom.
    change (String.eqb "melt" "melt") with true. cbv iota.
    pose proof (melt_fold_not_id_vars kws (mkMelt [] [] "value" "variable")
                  (mkMelt [] [] "value" "variable") eq_refl eq_refl eq_refl)
      as (H1 & H2 & H3).
    simpl in H1, H2, H3. now rewrite H1, H2, H3.
  - intro Hnone.
    unfold translate, generic_visit, visit, visit_Assign, assign_idioms,
      subscript_idioms, call_idioms.
    cbn [bind orelse].
    change (read_csv_idiom (ast.Attribute recv "melt") args) with
      (@None step).
    change (aggregation_idiom (ast.Attribute recv "melt")) with (@None step).
    change (groupby_idiom (ast.Attribute recv "melt") args kws) with
      (@None step).
    change (sort_values_idiom (ast.Attribute recv "melt") args kws) with
      (@None step).
    cbn [orelse]. unfold melt_idiom.
    change (String.eqb "melt" "melt") with true. cbv iota.
    rewrite (melt_fold_no_value_vars kws Hnone). reflexivity.
Qed.

(** X10. In [target = x.groupby(arg, ...)] without keyword, an argument
    that is neither a constant nor resolves to a string, such as a list of
    columns or a variable, is not declined: the step is added with both
    columns null, its aggregation is [count], and the fallback flag stays
    off. *)
Theorem groupby_unresolved_is_null (I : interpreter) (src : string)
    (target : ast.expr) (x : string) (arg0 : ast.expr)
    (rest : list ast.expr) (lineno : Z) (end_lineno : option Z) :
  (forall c, arg0 <> ast.Constant c) ->
  get_string_from_node arg0 = None ->
  translate I src
    [ast.Assign [target]
       (ast.Call (ast.Attribute (ast.Name x) "groupby") (arg0 :: rest) [])
       lineno end_lineno]
  = Printed
      (response
         [json_step "groupBy"
            [("groupByColumn", JNull); ("aggregateColumn", JNull);
             ("aggregation", JStr "count")]]
         false).
Proof.
  intros Hnot Hnone.
  unfold translate, generic_visit, visit, visit_Assign, assign_idioms,
    subscript_idioms, call_idioms.
  cbn [bind orelse].
  change (read_csv_idiom (ast.Attribute (ast.Name x) "groupby")
            (arg0 :: rest)) with (@None step).
  cbn [orelse]. unfold groupby_idiom.
  change (String.eqb "groupby" "groupby") with true. cbv iota.
  destruct arg0 as [c| | | | | | | | | | | | | | |];
    try (rewrite Hnone; reflexivity).
  now destruct (Hnot c).
Qed.

(** ** The source span of a computed column *)

Lemma py_slice_out_of_range {A : Type} (l : list A) (start stop : Z) :
  Z.of_nat (List.length l) <= start ->
  py_slice l start stop = [].
Proof.
  intro Hstart. unfold py_slice, slice_index.
  destruct (Z.ltb_spec start 0) as [Hneg|Hpos]; [exfalso; lia|].
  rewrite (Z.min_r start) by lia. rewrite Nat2Z.id.
  rewrite skipn_all. now rewrite firstn_nil.
Qed.

Lemma py_slice_one_line {A : Type} (l : list A) (n : nat) (x : A) :
  nth_error l n = Some x ->
  py_slice l (Z.of_nat n) (Z.of_nat n + 1) = [x].
Proof.
  intro Hnth.
  assert (Hlt : (n < List.length l)%nat)
    by (apply nth_error_Some; congruence).
  unfold py_slice, slice_index.
  destruct (Z.ltb_spec (Z.of_nat n) 0) as [Hneg|_]; [exfalso; lia|].
  destruct (Z.ltb_spec (Z.of_nat n + 1) 0) as [Hneg|_]; [exfalso; lia|].
  rewrite (Z.min_l (Z.of_nat n)), (Z.min_l (Z.of_nat n + 1)) by lia.
  replace (Z.of_nat n + 1 - Z.of_nat n) with 1 by lia.
  rewrite Nat2Z.id. change (Z.to_nat 1) with 1%nat.
  clear Hlt. revert l Hnth.
  induction n as [|n IH]; intros [|y l] Hnth; try discriminate.
  - simpl in Hnth. injection Hnth as ->. reflexivity.
  - simpl in Hnth. simpl. now apply IH.
Qed.

Lemma lstrip_blank (s : string) : blank s = true -> lstrip s = EmptyString.
Proof.
  induction s as [|c rest IH]; [reflexivity|].
  simpl. destruct (is_space c); [apply IH|discriminate].
Qed.

Lemma rstrip_nonblank (c : ascii) (rest : string) :
  is_space c = false -> rstrip (String c rest) <> EmptyString.
Proof.
  intro Hc. simpl. destruct (rstrip rest); [now rewrite Hc|discriminate].
Qed.

Lemma nonempty_strip (s : string) : nonempty (strip s) = negb (blank s).
Proof.
  unfold strip. induction s as [|c rest IH]; [reflexivity|].
  cbn [lstrip blank]. destruct (is_space c) eqn:Hc; [exact IH|].
  pose proof (rstrip_nonblank c rest Hc) as Hne.
  now destruct (rstrip (String c rest)).
Qed.

(** X11. A computed column reads whole lines of the source.  For an
    assignment [base[col] = value] whose right-hand side matches no idiom
    and lies on the line [line] alone, the step added has for expression
    that whole line with the whitespace around it removed, the target and
    the equals sign included; when the line is blank no step is added and
    the fallback flag is set. *)
Theorem computed_column_reads_line (I : interpreter)
    (self : PipelineExtractor) (base slice value : ast.expr)
    (col_name line : string) (n : nat) :
  assign_idioms I value = Ok None ->
  get_string_from_node slice = Some col_name ->
  nth_error (lines self) n = Some line ->
  visit_Assign I self [ast.Subscript base slice] value
    (Z.of_nat n + 1) (Some (Z.of_nat n + 1))
  = Ok (if blank line then set_fallback self
        else _add_step self
               (mkStep "computedColumn"
                  [("newColumnName", CfgStr col_name);
                   ("expression", CfgStr (strip line))])).
Proof.
  intros Hnone Hcol Hline. unfold visit_Assign. rewrite Hnone.
  cbn [bind]. unfold assign_tail.
  change (get_string_from_node (ast.Subscript base slice))
    with (get_string_from_node slice).
  rewrite Hcol. unfold unparse_simple.
  replace (Z.of_nat n + 1 - 1) with (Z.of_nat n) by lia.
  replace (if Z.of_nat n + 1 =? 0 then Z.of_nat n + 1 else Z.of_nat n + 1)
    with (Z.of_nat n + 1) by (now destruct (Z.of_nat n + 1 =? 0)).
  rewrite (py_slice_one_line _ n line Hline).
  cbn [String.concat]. rewrite nonempty_strip.
  now destruct (blank line).
Qed.

(** X12. A computed column whose right-hand side is said to start beyond
    the last line of the source has an empty span: no step is added and
    the fallback flag is set. *)
Theorem computed_column_out_of_range (I : interpreter)
    (self : PipelineExtractor) (base slice value : ast.expr)
    (col_name : string) (lineno : Z) (end_lineno : option Z) :
  assign_idioms I value = Ok None ->
  get_string_from_node slice = Some col_name ->
  Z.of_nat (List.length (lines self)) < lineno ->
  visit_Assign I self [ast.Subscript base slice] value lineno end_lineno
  = Ok (set_fallback self).
Proof.
  intros Hnone Hcol Hrange. unfold visit_Assign. rewrite Hnone.
  cbn [bind]. unfold assign_tail.
  change (get_string_from_node (ast.Subscript base slice))
    with (get_string_from_node slice).
  rewrite Hcol. unfold unparse_simple.
  rewrite py_slice_out_of_range by lia. reflexivity.
Qed.

(** ** Filters that are declined, and the faults of the traversal *)

(** X13. An assignment [df = base[<comparison>]] is no filter when the
    comparison is chained (it has not exactly one comparator), when its
    operator is none of [==], [!=], [<], [<=], [>], [>=] ([in], [is], ...),
    or when its right operand is not a constant or is [None]: no step is
    added and the fallback flag is set. *)
Theorem comparison_not_a_filter (I : interpreter) (self : PipelineExtractor)
    (base left_node : ast.expr) (ops : list ast.cmpop)
    (comparators : list ast.expr) (lineno : Z) (end_lineno : option Z) :
  List.length comparators <> 1%nat
  \/ (exists op rest, ops = op :: rest /\ FILTER_OPS op = None)
  \/ (exists op rest right_node,
         ops = op :: rest
         /\ comparators = [right_node]
         /\ is_None (get_constant_value right_node) = true) ->
  visit_Assign I self [ast.Name (df_name self)]
    (ast.Subscript base (ast.Compare left_node ops comparators))
    lineno end_lineno
  = Ok (set_fallback self).
Proof.
  intro Hwhy.
  assert (Hfilter :
    filter_idiom I (ast.Compare left_node ops comparators) = Ok None).
  { unfold filter_idiom. cbn [unwrap_Index attr_value].
    destruct Hwhy as [Hlen | [(op & rest & -> & Hop)
                             | (op & rest & right_node & -> & -> & Hnone)]].
    - destruct comparators as [|c1 [|c2 others]]; try reflexivity.
      now destruct Hlen.
    - destruct comparators as [|c1 [|c2 others]]; try reflexivity.
      rewrite Hop. now destruct (truthy_str _).
    - rewrite Hnone. destruct (truthy_str _); [|reflexivity].
      now destruct (FILTER_OPS op). }
  unfold visit_Assign, assign_idioms, subscript_idioms.
  rewrite Hfilter. cbn [bind get_column_list unwrap_Index attr_value
                        attr_elts orelse call_idioms].
  unfold assign_tail. cbn [is_Name]. now rewrite String.eqb_refl.
Qed.

Lemma filter_idiom_raises (I : interpreter) (slice : ast.expr) (e : exn) :
  filter_idiom I slice = Raised e ->
  exists left_node ops right_node,
    unwrap_Index slice = Node (ast.Compare left_node ops [right_node])
    /\ ((ops = [] /\ e = IndexError)
        \/ exists n,
            get_constant_value right_node = CInt n
            /\ exceeds_digit_limit I n = true
            /\ e = ValueError).
Proof.
  unfold filter_idiom.
  destruct (unwrap_Index slice) as [ex|c]; [|discriminate].
  destruct ex as [| | | | |left_node ops comparators| | | | | | | | | |];
    try discriminate.
  destruct comparators as [|right_node [|second others]]; try discriminate.
  intro Hraise. exists left_node, ops, right_node. split; [reflexivity|].
  destruct ops as [|op rest]; [left; split; [reflexivity|congruence]|].
  destruct (truthy_str _); [|discriminate].
  destruct (FILTER_OPS op); [|discriminate].
  destruct (is_None _); [discriminate|].
  right.
  destruct (get_constant_value right_node) as [|flag|n|f|im|str|bytes|];
    simpl in Hraise; try discriminate.
  unfold int_to_str in Hraise.
  destruct (exceeds_digit_limit I n) eqn:Hlimit; [|discriminate].
  simpl in Hraise. injection Hraise as <-.
  exists n. now repeat split.
Qed.

(** X14. Of the recognizers [visit_Assign] tries on a right-hand side,
    only the filter can raise: if they raise [e], the right-hand side is a
    subscript by a comparison with one comparator, and either [e] is
    [ValueError] and the right operand is an integer with more decimal
    digits than the interpreter's limit, or [e] is [IndexError] and the
    comparison has no operator.  The walk that closes [visit_Assign] is
    no recognizer and is not meant. *)
Theorem recognizers_raise_only_on_filter (I : interpreter)
    (value : ast.expr) (e : exn) :
  assign_idioms I value = Raised e ->
  exists base slice left_node ops right_node,
    value = ast.Subscript base slice
    /\ unwrap_Index slice = Node (ast.Compare left_node ops [right_node])
    /\ ((ops = [] /\ e = IndexError)
        \/ exists n,
            get_constant_value right_node = CInt n
            /\ exceeds_digit_limit I n = true
            /\ e = ValueError).
Proof.
  unfold assign_idioms, subscript_idioms. intro Hraise.
  destruct value as [| | |base slice| | | | | | | | | | | |];
    try (cbn [bind] in Hraise; discriminate).
  destruct (filter_idiom I slice) as [[f|]|e'] eqn:Hfilter.
  - discriminate.
  - cbn [bind] in Hraise. destruct (get_column_list _); discriminate.
  - cbn [bind] in Hraise. injection Hraise as ->.
    destruct (filter_idiom_raises I slice e Hfilter)
      as (ln & ops & rn & Hshape).
    now exists base, slice, ln, ops, rn.
Qed.

(** * The further properties at work *)

Lemma no_simple_statement_no_step_witness :
  flatten Examples.imports = []
  /\ translate Sample.cpython Examples.imports_src Examples.imports
     = Printed fallback_response.
Proof.
  split; [reflexivity|].
  apply (no_simple_statement_no_step Sample.cpython Examples.imports_src
           Examples.imports).
  reflexivity.
Defined.

(** A load, then [df = df[['a', 1]]] and [df = df.dropna()]. *)
Lemma steps_of_concatenation_witness :
  exists extractor,
    generic_visit Sample.cpython
      ([Sample.load 1] ++ (Sample.mixed_select ++ [Examples.dropna]))
      (init Sample.load_dropna_src) = Ok extractor
    /\ steps extractor
       = [Sample.load_step]
         ++ [mkStep "select" [("columns", CfgStrings ["a"%string])]]
    /\ fallback_to_llm extractor = false || true.
Proof.
  exact (steps_of_concatenation Sample.cpython Sample.load_dropna_src
           [Sample.load 1] (Sample.mixed_select ++ [Examples.dropna])
           (_add_step (init Sample.load_dropna_src) Sample.load_step)
           (set_fallback
              (_add_step (init Sample.load_dropna_src)
                 (mkStep "select" [("columns", CfgStrings ["a"%string])])))
           eq_refl eq_refl).
Defined.

Lemma steps_are_well_formed_witness :
  generic_visit Sample.cpython Sample.load_dropna
    (init Sample.load_dropna_src)
  = Ok (set_fallback
          (_add_step (init Sample.load_dropna_src) Sample.load_step))
  /\ forallb well_formed_step [Sample.load_step] = true.
Proof.
  split; [reflexivity|].
  exact (steps_are_well_formed Sample.cpython Sample.load_dropna_src
           Sample.load_dropna
           (set_fallback
              (_add_step (init Sample.load_dropna_src) Sample.load_step))
           eq_refl).
Defined.

Lemma document_is_printed_witness :
  ast_parse Sample.cpython Sample.load_dropna_src = Parsed Sample.load_dropna
  /\ exists doc, main Sample.cpython Sample.load_dropna_src = Printed doc.
Proof.
  split; [reflexivity|].
  apply (document_is_printed Sample.cpython Sample.load_dropna_src
           Sample.load_dropna eq_refl).
  intros node c [<-|[<-|[]]]; discriminate.
Defined.

Lemma groupby_constant_escapes_witness :
  dumps_constant Sample.cpython (CBytes "x") = Raised TypeError
  /\ translate Sample.cpython Examples.groupby_bytes_src
       [ast.Assign [Sample.df]
          (ast.Call (ast.Attribute Sample.df "groupby")
             [ast.Constant (CBytes "x")] [])
          1 (Some 1)]
     = Uncaught TypeError.
Proof.
  split; [reflexivity|].
  exact (groupby_constant_escapes Sample.cpython Examples.groupby_bytes_src
           Sample.df Sample.df (CBytes "x") [] 1 (Some 1) TypeError eq_refl).
Defined.

Lemma melt_ignores_id_vars_witness :
  forallb not_value_vars Examples.melt_keywords = true
  /\ translate Sample.cpython Examples.melt_src
       [ast.Assign [ast.Name "df"]
          (ast.Call (ast.Attribute Sample.df "melt") []
             Examples.melt_keywords)
          1 (Some 1)]
     = Printed fallback_response.
Proof.
  split; [reflexivity|].
  exact (proj2 (melt_ignores_id_vars Sample.cpython Examples.melt_src
                  Sample.df [] Examples.melt_keywords 1 (Some 1))
           eq_refl).
Defined.

Lemma column_list_not_constant :
  forall c, Examples.column_list <> ast.Constant c.
Proof. intros c. discriminate. Defined.

Lemma groupby_unresolved_is_null_witness :
  get_string_from_node Examples.column_list = None
  /\ translate Sample.cpython Examples.groupby_list_src
       [ast.Assign [Sample.df]
          (ast.Call (ast.Attribute (ast.Name "df") "groupby")
             [Examples.column_list] [])
          1 (Some 1)]
     = Printed
         (response
            [json_step "groupBy"
               [("groupByColumn", JNull); ("aggregateColumn", JNull);
                ("aggregation", JStr "count")]]
            false).
Proof.
  split; [reflexivity|].
  exact (groupby_unresolved_is_null Sample.cpython Examples.groupby_list_src
           Sample.df "df" Examples.column_list [] 1 (Some 1)
           column_list_not_constant eq_refl).
Defined.

Lemma computed_column_reads_line_witness :
  nth_error (lines (init Examples.computed_src)) 0
  = Some Examples.computed_src
  /\ visit_Assign Sample.cpython (init Examples.computed_src)
       [ast.Subscript Sample.df (Sample.str "c")] ast.OtherExpr 1 (Some 1)
     = Ok (_add_step (init Examples.computed_src)
             (mkStep "computedColumn"
                [("newColumnName", CfgStr "c");
                 ("expression", CfgStr "df['c'] = df['a'] * 2")])).
Proof.
  split; [reflexivity|].
  exact (computed_column_reads_line Sample.cpython
           (init Examples.computed_src) Sample.df (Sample.str "c")
           ast.OtherExpr "c" Examples.computed_src 0 eq_refl eq_refl eq_refl).
Defined.

Lemma computed_column_out_of_range_witness :
  Z.of_nat (List.length (lines (init Examples.computed_src))) < 2
  /\ visit_Assign Sample.cpython (init Examples.computed_src)
       [ast.Subscript Sample.df (Sample.str "c")] ast.OtherExpr 2 (Some 2)
     = Ok (set_fallback (init Examples.computed_src)).
Proof.
  split; [reflexivity|].
  exact (computed_column_out_of_range Sample.cpython
           (init Examples.computed_src) Sample.df (Sample.str "c")
           ast.OtherExpr "c" 2 (Some 2) eq_refl eq_refl eq_refl).
Defined.

Lemma comparison_not_a_filter_witness :
  visit_Assign Sample.cpython (init Examples.chained_src) [ast.Name "df"]
    (ast.Subscript Sample.df
       (ast.Compare (ast.Constant (CInt 0)) [ast.Lt; ast.Lt]
          [ast.Subscript Sample.df (Sample.str "a");
           ast.Constant (CInt 5)]))
    1 (Some 1)
  = Ok (set_fallback (init Examples.chained_src)).
Proof.
  apply (comparison_not_a_filter Sample.cpython (init Examples.chained_src)
           Sample.df (ast.Constant (CInt 0)) [ast.Lt; ast.Lt]
           [ast.Subscript Sample.df (Sample.str "a"); ast.Constant (CInt 5)]
           1 (Some 1)).
  left. discriminate.
Defined.

Lemma recognizers_raise_only_on_filter_witness :
  assign_idioms Sample.cpython
    (ast.Subscript Sample.df
       (ast.Compare (ast.Subscript Sample.df (Sample.str "a"))
          [ast.Gt] [ast.Constant (CInt (2 * 16 ^ 3571))]))
  = Raised ValueError
  /\ exists base slice left_node ops right_node,
      ast.Subscript Sample.df
        (ast.Compare (ast.Subscript Sample.df (Sample.str "a"))
           [ast.Gt] [ast.Constant (CInt (2 * 16 ^ 3571))])
      = ast.Subscript base slice
      /\ unwrap_Index slice = Node (ast.Compare left_node ops [right_node])
      /\ ((ops = [] /\ ValueError = IndexError)
          \/ exists n,
              get_constant_value right_node = CInt n
              /\ exceeds_digit_limit Sample.cpython n = true
              /\ ValueError = ValueError).
Proof.
  assert (Hraise : assign_idioms Sample.cpython
                     (ast.Subscript Sample.df
                        (ast.Compare (ast.Subscript Sample.df (Sample.str "a"))
                           [ast.Gt] [ast.Constant (CInt (2 * 16 ^ 3571))]))
                   = Raised ValueError)
    by (vm_compute; reflexivity).
  split; [exact Hraise|].
  exact (recognizers_raise_only_on_filter Sample.cpython
           (ast.Subscript Sample.df
              (ast.Compare (ast.Subscript Sample.df (Sample.str "a"))
                 [ast.Gt] [ast.Constant (CInt (2 * 16 ^ 3571))]))
           ValueError Hraise).
Defined.

(** * Properties of the chart renderer *)

Section Renderer.

Import render_chart.

Variable R : runtime.

Lemma dict_get_dict (d key v : json) :
  dict_get d key = Val v -> is_dict d = true.
Proof. destruct d; try discriminate. reflexivity. Qed.

Lemma comprehension_length {A B : Type} (f : A -> res B) (l : list A) :
  forall bs,
    comprehension f l = Val bs ->
    List.length bs = List.length l
    /\ Forall (fun a => exists b, f a = Val b) l.
Proof.
  induction l as [|a rest IH]; intros bs Hc.
  - injection Hc as <-. split; [reflexivity|constructor].
  - simpl in Hc. destruct (f a) as [b|e] eqn:Hfa; [|discriminate].
    simpl in Hc.
    destruct (comprehension f rest) as [bs'|e]; [|discriminate].
    injection Hc as <-. destruct (IH bs' eq_refl) as [Hlen Hall].
    split; [simpl; now rewrite Hlen|].
    constructor; [now exists b|exact Hall].
Qed.

Lemma x_value_dict (key d v : json) :
  x_value R key d = Val v -> is_dict d = true.
Proof.
  unfold x_value. destruct (dict_get d key) as [w|e] eqn:Hget;
    [|discriminate].
  intros _. now apply (dict_get_dict d key w).
Qed.

Lemma read_header_fmt (payload : json) (h : header) :
  read_header R payload = Val h ->
  h_fmt h = "png"%string \/ h_fmt h = "svg"%string.
Proof.
  unfold read_header.
  repeat match goal with
         | |- and_then ?r _ = _ -> _ =>
             destruct r; [cbn [and_then]|discriminate]
         end.
  intros [= <-]. cbn [h_fmt in_strings existsb].
  match goal with
  | |- context [String.eqb ?x "png"] =>
      destruct (String.eqb_spec x "png") as [->|_]; [now left|];
      destruct (String.eqb_spec x "svg") as [->|_]; [now right|now left]
  end.
Qed.

(** X15. Whatever [main] hands to the drawing is sound: the format is
    [png] or [svg] (any other asked format became [png]), both axes are
    set, the data is a non-empty list of dicts, and there is one x value
    and one y value per row. *)
Theorem drawn_figure_is_valid (stdin : string) (f : figure) :
  prepare R stdin = Draw f ->
  (fmt f = "png"%string \/ fmt f = "svg"%string)
  /\ truth (x_axis f) = true
  /\ truth (y_axis f) = true
  /\ data f <> []
  /\ forallb is_dict (data f) = true
  /\ List.length (x_vals f) = List.length (data f)
  /\ List.length (y_vals f) = List.length (data f).
Proof.
  unfold prepare.
  destruct (json_load R stdin) as [payload|message|e]; try discriminate.
  destruct (read_header R payload) as [h|e] eqn:Hheader; [|discriminate].
  pose proof (read_header_fmt payload h Hheader) as Hfmt.
  unfold checks.
  destruct (truth (h_x_axis h)) eqn:Hx; [|discriminate].
  destruct (truth (h_y_axis h)) eqn:Hy; [|discriminate].
  cbn [negb orb].
  destruct (h_data h) as [| | | | |[|row rows]|]; try discriminate.
  destruct (comprehension (x_value R (h_x_axis h)) (row :: rows))
    as [xs|e] eqn:Hxs; [|discriminate].
  cbn [and_then].
  destruct (comprehension (fun d => get_num R d (h_y_axis h)) (row :: rows))
    as [ys|e] eqn:Hys; [|discriminate].
  cbn [and_then].
  destruct ys as [|y ys']; [discriminate|].
  intros [= <-]. cbn [fmt x_axis y_axis data x_vals y_vals].
  destruct (comprehension_length _ _ _ Hxs) as [Hxlen Hxall].
  destruct (comprehension_length _ _ _ Hys) as [Hylen _].
  repeat split; try assumption; try discriminate.
  apply forallb_forall. intros d Hd.
  rewrite Forall_forall in Hxall. destruct (Hxall d Hd) as [v Hv].
  now apply (x_value_dict (h_x_axis h) d v).
Qed.

(** X16. The message [No valid y values] is never printed: the list of y
    values has one element per row of a data list that was checked to be
    non-empty. *)
Theorem no_valid_y_values_is_dead (stdin : string) :
  main R stdin <> Output (error_doc "No valid y values").
Proof.
  unfold main, prepare.
  destruct (json_load R stdin) as [payload|message|e]; try discriminate.
  destruct (read_header R payload) as [h|e]; [|discriminate].
  unfold checks.
  destruct (negb (truth (h_x_axis h)) || negb (truth (h_y_axis h)));
    [discriminate|].
  destruct (h_data h) as [| | | | |[|row rows]|]; try discriminate.
  destruct (comprehension (x_value R (h_x_axis h)) (row :: rows))
    as [xs|e]; [|discriminate].
  cbn [and_then].
  destruct (comprehension (fun d => get_num R d (h_y_axis h)) (row :: rows))
    as [ys|e] eqn:Hys; [|discriminate].
  cbn [and_then].
  destruct ys as [|y ys'].
  - destruct (comprehension_length _ _ _ Hys) as [Hlen _]. discriminate.
  - destruct (savefig R _); [|discriminate].
    destruct (String.eqb _ "svg"); discriminate.
Qed.

(** X17. A document printed by [main] is an object with the single key
    [error] or the single key [image], its value a string. *)
Theorem output_is_error_or_image (stdin : string) (doc : json) :
  main R stdin = Output doc ->
  exists text, doc = error_doc text \/ doc = image_doc text.
Proof.
  unfold main, prepare.
  destruct (json_load R stdin) as [payload|message|e].
  - destruct (read_header R payload) as [h|e]; [|discriminate].
    unfold checks.
    destruct (negb (truth (h_x_axis h)) || negb (truth (h_y_axis h))).
    { intros [= <-]. eexists. now left. }
    destruct (h_data h) as [| | | | |[|row rows]|];
      try (intros [= <-]; eexists; now left).
    destruct (and_then _ _) as [[xs ys]|e];
      [|intros [= <-]; eexists; now left].
    destruct ys as [|y ys']; [intros [= <-]; eexists; now left|].
    destruct (savefig R _) as [image|e]; [|discriminate].
    destruct (String.eqb _ "svg"); intros [= <-]; eexists; now right.
  - intros [= <-]. eexists. now left.
  - discriminate.
Qed.

(** X18. [get_num] gives [0.0] for a key that is missing or null and for a
    value [float] rejects with [TypeError] or [ValueError], and it lets
    only three exceptions out: [AttributeError] when the row is no dict,
    [TypeError] when the key cannot be hashed, and [OverflowError] when
    the value is an int too large for a float. *)
Theorem get_num_errors (d key : json) :
  match get_num R d key with
  | Exc e =>
      (e = AttributeError /\ is_dict d = false)
      \/ (e = TypeError /\ is_dict d = true /\ unhashable key = true)
      \/ (e = OverflowError
          /\ exists n, dict_get d key = Val (JInt n)
                       /\ float_of_int R n = None)
  | Val f =>
      is_dict d = true
      /\ (dict_get d key = Val JNull -> f = zero_float)
      /\ (forall v, dict_get d key = Val v ->
                    to_float R v = Exc TypeError \/ to_float R v = Exc ValueError ->
                    f = zero_float)
  end.
Proof.
  unfold get_num.
  destruct d as [| | | | | |members]; try (left; now split).
  destruct (dict_get (JObj members) key) as [v|e] eqn:Hget.
  - cbn [and_then].
    assert (Hval : forall f,
               (v = JNull -> f = zero_float) ->
               (to_float R v = Exc TypeError \/ to_float R v = Exc ValueError
                -> f = zero_float) ->
               is_dict (JObj members) = true
               /\ (Val v = Val JNull -> f = zero_float)
               /\ (forall v0, Val v = Val v0 ->
                              to_float R v0 = Exc TypeError
                              \/ to_float R v0 = Exc ValueError ->
                              f = zero_float)).
    { intros f Hnull Hrej. split; [reflexivity|]. split.
      - intros [= ->]. now apply Hnull.
      - intros v0 [= <-]. exact Hrej. }
    destruct v as [|b|n|fl|s|items|ms]; cbn [to_float] in *.
    + apply Hval; reflexivity.
    + apply Hval; [discriminate|intros [H|H]; discriminate].
    + destruct (float_of_int R n) as [fl|] eqn:Hfloat.
      * apply Hval; [discriminate|intros [H|H]; discriminate].
      * right; right. split; [reflexivity|]. now exists n.
    + apply Hval; [discriminate|intros [H|H]; discriminate].
    + destruct (float_of_str R s) as [fl|] eqn:Hfloat.
      * apply Hval; [discriminate|intros [H|H]; discriminate].
      * apply Hval; reflexivity.
    + apply Hval; reflexivity.
    + apply Hval; reflexivity.
  - cbn [and_then]. right; left.
    unfold dict_get in Hget.
    destruct key as [| | | |k|items|ms]; try discriminate;
      try (destruct (member k members); discriminate);
      injection Hget as <-; now repeat split.
Qed.

Lemma add_row_keys (g : groups) (key x : string) (y : spec_float)
    (k : string) :
  In k (group_keys (add_row g key x y)) -> In k (group_keys g) \/ k = key.
Proof.
  induction g as [|[k0 [xs ys]] rest IH]; simpl.
  - intros [<- | []]. now right.
  - destruct (String.eqb k0 key); simpl.
    + intros [<- | Hin]; left; [now left|now right].
    + intros [<- | Hin]; [left; now left|].
      destruct (IH Hin) as [Hrest | ->]; [left; now right|now right].
Qed.

Lemma add_row_NoDup (g : groups) (key x : string) (y : spec_float) :
  NoDup (group_keys g) -> NoDup (group_keys (add_row g key x y)).
Proof.
  induction g as [|[k0 [xs ys]] rest IH]; simpl; intro Hnd.
  - constructor; [easy|constructor].
  - inversion Hnd as [|? ? Hnotin Hrest]; subst.
    destruct (String.eqb_spec k0 key) as [-> | Hneq]; simpl.
    + now constructor.
    + constructor; [|now apply IH].
      intro Hin. apply add_row_keys in Hin.
      destruct Hin as [Hin|Heq]; [now apply Hnotin|now apply Hneq].
Qed.

Lemma add_row_sizes (g : groups) (key x : string) (y : spec_float) :
  list_sum (group_sizes (add_row g key x y)) = S (list_sum (group_sizes g)).
Proof.
  induction g as [|[k0 [xs ys]] rest IH]; [reflexivity|].
  simpl. destruct (String.eqb k0 key); simpl.
  - rewrite length_app. simpl. lia.
  - rewrite IH. lia.
Qed.

Lemma add_row_paired (g : groups) (key x : string) (y : spec_float) :
  Forall (fun entry =>
            fst (snd entry) <> []
            /\ List.length (fst (snd entry)) = List.length (snd (snd entry)))
         g ->
  Forall (fun entry =>
            fst (snd entry) <> []
            /\ List.length (fst (snd entry)) = List.length (snd (snd entry)))
         (add_row g key x y).
Proof.
  induction g as [|[k0 [xs ys]] rest IH]; simpl; intro Hall.
  - constructor; [|constructor]. split; [discriminate|reflexivity].
  - inversion Hall as [|? ? [Hne Hlen] Hrest]; subst. simpl in *.
    destruct (String.eqb k0 key).
    + constructor; [|exact Hrest]. simpl. split.
      * intro Happ. now destruct xs.
      * rewrite !length_app. simpl. lia.
    + constructor; [now split|now apply IH].
Qed.

Lemma group_rows_partition (f : figure) (rows : list json) :
  forall i n g g',
    group_rows R f rows i n g = Val g' ->
    NoDup (group_keys g) ->
    Forall (fun entry =>
              fst (snd entry) <> []
              /\ List.length (fst (snd entry))
                 = List.length (snd (snd entry)))
           g ->
    NoDup (group_keys g')
    /\ list_sum (group_sizes g')
       = (list_sum (group_sizes g) + List.length rows)%nat
    /\ Forall (fun entry =>
                 fst (snd entry) <> []
                 /\ List.length (fst (snd entry))
                    = List.length (snd (snd entry)))
              g'.
Proof.
  induction rows as [|d rest IH]; intros i n g g' Hrun Hnd Hall.
  - injection Hrun as <-. simpl. repeat split; try assumption. lia.
  - simpl in Hrun.
    destruct (get_str R d (color_by f)) as [key|e]; [|discriminate].
    cbn [and_then] in Hrun.
    destruct (if (i <? n)%nat then get_str R d (x_axis f) else Val "")
      as [x|e]; [|discriminate].
    cbn [and_then] in Hrun.
    destruct (get_num R d (y_axis f)) as [y|e]; [|discriminate].
    cbn [and_then] in Hrun.
    destruct (IH _ _ _ _ Hrun (add_row_NoDup g key x y Hnd)
                (add_row_paired g key x y Hall)) as (H1 & H2 & H3).
    repeat split; try assumption.
    rewrite H2, add_row_sizes. simpl. lia.
Qed.

(** X19. The groups of a bar chart coloured by a column partition the
    rows: when the loop ends, the group keys are distinct, every group
    holds at least one row and as many x values as y values, and the
    groups hold together exactly as many rows as the data. *)
Theorem bar_groups_partition (f : figure) (g : groups) :
  bar_groups R f = Val g ->
  NoDup (group_keys g)
  /\ list_sum (group_sizes g) = List.length (data f)
  /\ Forall (fun entry =>
               fst (snd entry) <> []
               /\ List.length (fst (snd entry))
                  = List.length (snd (snd entry)))
            g.
Proof.
  intro Hrun. unfold bar_groups in Hrun.
  apply group_rows_partition in Hrun; [exact Hrun|constructor|constructor].
Qed.

Lemma get_str_of_dict_get (d key v : json) :
  dict_get d key = Val v -> exists s, get_str R d key = Val s.
Proof.
  intro Hget. unfold get_str. rewrite Hget. cbn [and_then].
  destruct v; eexists; reflexivity.
Qed.

Lemma x_value_get_str (key d v : json) :
  x_value R key d = Val v -> exists s, get_str R d key = Val s.
Proof.
  unfold x_value. destruct (dict_get d key) as [w|e] eqn:Hget;
    [|discriminate].
  intros _. now apply (get_str_of_dict_get d key w).
Qed.

Lemma dict_get_hashable (members : list (string * json)) (key : json) :
  unhashable key = false -> exists v, dict_get (JObj members) key = Val v.
Proof.
  destruct key as [| | | |k|items|ms]; try discriminate; intros _;
    cbn [dict_get]; try (eexists; reflexivity).
  destruct (member k members); eexists; reflexivity.
Qed.

Lemma dict_get_unhashable (members : list (string * json)) (key : json) :
  unhashable key = true -> dict_get (JObj members) key = Exc TypeError.
Proof. destruct key; try discriminate; reflexivity. Qed.

(** The rows of a figure handed to the drawing were all read once. *)
Lemma prepare_rows (stdin : string) (f : figure) :
  prepare R stdin = Draw f ->
  data f <> []
  /\ Forall (fun d =>
               is_dict d = true
               /\ (exists s, get_str R d (x_axis f) = Val s)
               /\ (exists y, get_num R d (y_axis f) = Val y))
            (data f).
Proof.
  unfold prepare.
  destruct (json_load R stdin) as [payload|message|e]; try discriminate.
  destruct (read_header R payload) as [h|e]; [|discriminate].
  unfold checks.
  destruct (negb (truth (h_x_axis h)) || negb (truth (h_y_axis h)));
    [discriminate|].
  destruct (h_data h) as [| | | | |[|row rows]|]; try discriminate.
  destruct (comprehension (x_value R (h_x_axis h)) (row :: rows))
    as [xs|e] eqn:Hxs; [|discriminate].
  cbn [and_then].
  destruct (comprehension (fun d => get_num R d (h_y_axis h)) (row :: rows))
    as [ys|e] eqn:Hys; [|discriminate].
  cbn [and_then].
  destruct ys as [|y ys']; [discriminate|].
  intros [= <-]. cbn [x_axis y_axis data].
  destruct (comprehension_length _ _ _ Hxs) as [_ Hxall].
  destruct (comprehension_length _ _ _ Hys) as [_ Hyall].
  split; [discriminate|].
  rewrite Forall_forall in *. intros d Hd.
  destruct (Hxall d Hd) as [v Hv]. repeat split.
  - now apply (x_value_dict (h_x_axis h) d v).
  - now apply (x_value_get_str (h_x_axis h) d v).
  - exact (Hyall d Hd).
Qed.

Lemma group_rows_completes (f : figure) (rows : list json) :
  unhashable (color_by f) = false ->
  Forall (fun d =>
            is_dict d = true
            /\ (exists s, get_str R d (x_axis f) = Val s)
            /\ (exists y, get_num R d (y_axis f) = Val y))
         rows ->
  forall i n g, exists g', group_rows R f rows i n g = Val g'.
Proof.
  intros Hkey Hrows.
  induction Hrows as [|d rest (Hdict & [s Hs] & [y Hy]) _ IH]; intros i n g.
  - now exists g.
  - cbn [group_rows]. destruct d as [| | | | | |members]; try discriminate.
    destruct (dict_get_hashable members (color_by f) Hkey) as [v Hv].
    destruct (get_str_of_dict_get _ _ _ Hv) as [key ->].
    cbn [and_then]. rewrite Hs, Hy.
    destruct (i <? n)%nat; cbn [and_then]; apply IH.
Qed.

(** X20. Once [main] has reached the drawing, the loop that groups the
    rows of a coloured bar chart reads every row again without fault, as
    each was read before; it fails in one case only, with the [TypeError]
    of a [colorBy] that is a list or a dict and cannot be a key. *)
Theorem bar_groups_after_prepare (stdin : string) (f : figure) :
  prepare R stdin = Draw f ->
  if unhashable (color_by f) then bar_groups R f = Exc TypeError
  else exists g, bar_groups R f = Val g.
Proof.
  intro Hdraw. destruct (prepare_rows stdin f Hdraw) as [Hne Hrows].
  unfold bar_groups. destruct (unhashable (color_by f)) eqn:Hkey.
  - destruct (data f) as [|d rest]; [now contradiction Hne|].
    inversion Hrows as [|? ? (Hdict & _) _]; subst.
    destruct d as [| | | | | |members]; try discriminate.
    cbn [group_rows]. unfold get_str.
    now rewrite (dict_get_unhashable members (color_by f) Hkey).
  - now apply group_rows_completes.
Qed.

(** X21. A payload that is valid JSON but no object ends the run with an
    [AttributeError], before anything is printed. *)
Theorem non_object_payload_crashes (stdin : string) (payload : json) :
  json_load R stdin = Loaded payload ->
  is_dict payload = false ->
  main R stdin = Crash AttributeError.
Proof.
  intros Hload Hdict. unfold main, prepare. rewrite Hload.
  destruct payload; try discriminate; reflexivity.
Qed.

End Renderer.

(** * The renderer at work on the sample payload *)

Lemma drawn_figure_is_valid_witness :
  render_chart.prepare ChartExamples.runtime ChartExamples.payload_text
  = render_chart.Draw ChartExamples.drawn
  /\ render_chart.fmt ChartExamples.drawn = "png"%string
  /\ List.length (render_chart.x_vals ChartExamples.drawn)
     = List.length (render_chart.data ChartExamples.drawn).
Proof.
  assert (Hdraw : render_chart.prepare ChartExamples.runtime
                    ChartExamples.payload_text
                  = render_chart.Draw ChartExamples.drawn)
    by (vm_compute; reflexivity).
  split; [exact Hdraw|]. split; [reflexivity|].
  exact (proj1 (proj2 (proj2 (proj2 (proj2 (proj2
           (drawn_figure_is_valid ChartExamples.runtime
              ChartExamples.payload_text ChartExamples.drawn Hdraw))))))).
Defined.

Lemma output_is_error_or_image_witness :
  render_chart.main ChartExamples.runtime ""
  = render_chart.Output
      (render_chart.error_doc "Invalid JSON: Expecting value")
  /\ exists text,
      render_chart.error_doc "Invalid JSON: Expecting value"
      = render_chart.error_doc text
      \/ render_chart.error_doc "Invalid JSON: Expecting value"
         = render_chart.image_doc text.
Proof.
  split; [reflexivity|].
  exact (output_is_error_or_image ChartExamples.runtime ""
           (render_chart.error_doc "Invalid JSON: Expecting value") eq_refl).
Defined.

Lemma bar_groups_partition_witness :
  render_chart.bar_groups ChartExamples.runtime ChartExamples.drawn
  = render_chart.Val
      [("x"%string,
        (["a"; "c"]%string, [S754_finite false 1 0; S754_finite false 3 0]));
       ("y"%string, (["b"%string], [S754_finite false 2 0]))]
  /\ list_sum [2; 1]%nat = 3%nat.
Proof.
  assert (Hrun : render_chart.bar_groups ChartExamples.runtime
                   ChartExamples.drawn
                 = render_chart.Val
                     [("x"%string,
                       (["a"; "c"]%string,
                        [S754_finite false 1 0; S754_finite false 3 0]));
                      ("y"%string, (["b"%string], [S754_finite false 2 0]))])
    by (vm_compute; reflexivity).
  split; [exact Hrun|].
  exact (proj1 (proj2 (bar_groups_partition ChartExamples.runtime
                         ChartExamples.drawn _ Hrun))).
Defined.

Lemma bar_groups_after_prepare_witness :
  render_chart.prepare ChartExamples.runtime ChartExamples.payload_text
  = render_chart.Draw ChartExamples.drawn
  /\ exists g,
      render_chart.bar_groups ChartExamples.runtime ChartExamples.drawn
      = render_chart.Val g.
Proof.
  assert (Hdraw : render_chart.prepare ChartExamples.runtime
                    ChartExamples.payload_text
                  = render_chart.Draw ChartExamples.drawn)
    by (vm_compute; reflexivity).
  split; [exact Hdraw|].
  exact (bar_groups_after_prepare ChartExamples.runtime
           ChartExamples.payload_text ChartExamples.drawn Hdraw).
Defined.

Lemma non_object_payload_crashes_witness :
  render_chart.json_load ChartExamples.runtime "[]"
  = render_chart.Loaded (JArr [])
  /\ render_chart.main ChartExamples.runtime "[]"
     = render_chart.Crash render_chart.AttributeError.
Proof.
  split; [reflexivity|].
  exact (non_object_payload_crashes ChartExamples.runtime "[]" (JArr [])
           eq_refl eq_refl).
Defined.
